(** * PrintAPI SDK: validation, request execution and error normalisation

    A shallow embedding of [src/validate.js], [src/PrintApiError.js] and
    [src/PrintApiClient.js], and the properties of the client that follow
    from it.

    JavaScript values are an inductive type; objects are finite maps from
    property names to values; [throw] is the [Throw] outcome; the network
    and the [URL] constructor are parameters of the client (a [host]). *)

From Stdlib Require Import Ascii QArith.
From stdpp Require Import gmap strings list fin_maps pretty.

Set Warnings "-register-all".
Set Default Proof Using "Type".

(** ** JavaScript values *)

Module JS.

(** A number is a finite value, an infinity or NaN.  Finite doubles are
    rationals; the model allows every rational. *)
Inductive number :=
| NaN
| PosInf
| NegInf
| Fin (q : Q).

(** Data as it reaches the SDK: JSON values, and [undefined], [NaN] and the
    infinities that a JavaScript caller can pass as well.  A string is a
    sequence of code units; the model has the code units 0 to 255 (Latin-1),
    one per character. *)
Inductive value :=
| VUndefined
| VNull
| VBool (b : bool)
| VNum (n : number)
| VStr (s : string)
| VArr (l : list value)
| VObj (o : gmap string value).

Definition num (z : Z) : value := VNum (Fin (inject_Z z)).

Definition typeof (v : value) : string :=
  match v with
  | VUndefined => "undefined"
  | VBool _ => "boolean"
  | VNum _ => "number"
  | VStr _ => "string"
  | VNull | VArr _ | VObj _ => "object"
  end.

(** ToBoolean. *)
Definition truthy (v : value) : bool :=
  match v with
  | VUndefined | VNull => false
  | VBool b => b
  | VNum NaN => false
  | VNum (Fin q) => negb (Qeq_bool q 0)
  | VNum _ => true
  | VStr s => negb (String.eqb s "")
  | VArr _ | VObj _ => true
  end.

(** [v != null] : neither [null] nor [undefined]. *)
Definition not_nullish (v : value) : bool :=
  match v with
  | VUndefined | VNull => false
  | _ => true
  end.

Definition Array_isArray (v : value) : bool :=
  match v with
  | VArr _ => true
  | _ => false
  end.

Definition Number_isInteger (v : value) : bool :=
  match v with
  | VNum (Fin q) => (Qnum q mod Zpos (Qden q) =? 0)%Z
  | _ => false
  end.

(** [a < b] and [a <= b] on numbers: false as soon as one side is NaN. *)
Definition number_lt (a b : number) : bool :=
  match a, b with
  | NaN, _ | _, NaN => false
  | Fin x, Fin y => negb (Qle_bool y x)
  | NegInf, NegInf => false
  | NegInf, _ => true
  | PosInf, _ => false
  | Fin _, PosInf => true
  | Fin _, NegInf => false
  end.

Definition number_le (a b : number) : bool :=
  match a, b with
  | NaN, _ | _, NaN => false
  | Fin x, Fin y => Qle_bool x y
  | NegInf, _ => true
  | _, PosInf => true
  | PosInf, _ => false
  | Fin _, NegInf => false
  end.

(** The relational operators [<], [>] and [<=], applied to a value and a
    numeric literal.  Every comparison of the program is guarded by a test
    that its left operand is a number, so the coercion of other operands
    is never run; those cases answer [false]. *)
Definition less (v : value) (z : Z) : bool :=
  match v with
  | VNum n => number_lt n (Fin (inject_Z z))
  | _ => false
  end.

Definition greater (v : value) (z : Z) : bool :=
  match v with
  | VNum n => number_lt (Fin (inject_Z z)) n
  | _ => false
  end.

Definition less_or_equal (v : value) (z : Z) : bool :=
  match v with
  | VNum n => number_le n (Fin (inject_Z z))
  | _ => false
  end.

(** Property read [v.k] for the fixed names the program uses (never
    ["length"] nor an index): an object answers its own property, an array
    or a primitive has none.  The program reads properties of values it has
    tested to be truthy, so there is no read from [null] or [undefined]. *)
Definition prop (v : value) (k : string) : value :=
  match v with
  | VObj o => default VUndefined (o !! k)
  | _ => VUndefined
  end.

(** [v === "literal"] *)
Definition strict_eq_string (v : value) (s : string) : bool :=
  match v with
  | VStr x => String.eqb x s
  | _ => false
  end.

(** The elements of an array ([[]] for any other value). *)
Definition elements (v : value) : list value :=
  match v with
  | VArr l => l
  | _ => []
  end.

(** *** Strings *)

(** White space and line terminators among the code units 0 to 255. *)
Definition is_white (c : ascii) : bool :=
  let n := N_of_ascii c in
  ((9 <=? n) && (n <=? 13) || (n =? 32) || (n =? 160))%N.

Fixpoint trimStart (s : string) : string :=
  match s with
  | String c r => if is_white c then trimStart r else s
  | EmptyString => EmptyString
  end.

Definition trimEnd (s : string) : string :=
  String.rev (trimStart (String.rev s)).

Definition trim (s : string) : string := trimEnd (trimStart s).

Definition startsWith (s p : string) : bool := String.prefix p s.

Fixpoint includes (s sub : string) : bool :=
  String.prefix sub s ||
  match s with
  | String _ r => includes r sub
  | EmptyString => false
  end.

(** Upper-casing of one code unit.  The sharp s becomes two letters; the
    capitals of the micro sign (181) and of y with diaeresis (255) lie
    outside Latin-1 and are kept as they are (neither they nor their
    capitals are ASCII letters). *)
Definition upper (c : ascii) : string :=
  let n := N_of_ascii c in
  if ((97 <=? n) && (n <=? 122))%N then String (ascii_of_N (n - 32)) ""
  else if (n =? 223)%N then "SS"
  else if ((224 <=? n) && (n <=? 254) && negb (n =? 247))%N
       then String (ascii_of_N (n - 32)) ""
  else String c "".

Fixpoint toUpperCase (s : string) : string :=
  match s with
  | String c r => upper c +:+ toUpperCase r
  | EmptyString => EmptyString
  end.

(** [new Set([...])] of strings and its [has], which is false on every
    value that is not a string. *)
Definition Set_has (s : gset string) (v : value) : bool :=
  match v with
  | VStr x => bool_decide (x ∈ s)
  | _ => false
  end.

(** *** Exceptions *)

(** What a call can throw: a plain [Error] (local validation), a
    [TypeError] raised by the runtime (its text is the engine's), or the SDK's [PrintApiError], whose
    constructor stores its four arguments ([details] defaults to [{}]).
    [message] is the value handed on to [Error], which keeps its string
    form. *)
Inductive exn :=
| Error (message : string)
| TypeError
| PrintApiError (status : N) (errorType : value) (message : value)
                (details : gmap string value).

Inductive outcome (A : Type) :=
| Ret (a : A)
| Throw (e : exn).
Arguments Ret {A} a.
Arguments Throw {A} e.

#[global] Instance outcome_ret : MRet outcome := @Ret.
#[global] Instance outcome_bind : MBind outcome := λ A B f m,
  match m with
  | Ret a => f a
  | Throw e => Throw e
  end.

(** [if (b) throw e;] *)
Definition throw_if (b : bool) (e : exn) : outcome unit :=
  if b then Throw e else Ret ().

(** [for (let i = start; i < l.length; i++) body(i, l[i])] *)
Fixpoint for_from (start : nat) (body : nat → value → outcome unit)
         (l : list value) : outcome unit :=
  match l with
  | [] => Ret ()
  | x :: rest => body start x ;; for_from (S start) body rest
  end.

Definition for_each := for_from 0.

End JS.

Export JS.

(** ** [src/validate.js] *)

(** Lower 48 US states + DC (excludes AK, HI). *)
Definition VALID_STATES : gset string := list_to_set [
  "AL"; "AZ"; "AR"; "CA"; "CO"; "CT"; "DC"; "DE"; "FL"; "GA";
  "ID"; "IL"; "IN"; "IA"; "KS"; "KY"; "LA"; "ME"; "MD"; "MA";
  "MI"; "MN"; "MS"; "MO"; "MT"; "NE"; "NV"; "NH"; "NJ"; "NM";
  "NY"; "NC"; "ND"; "OH"; "OK"; "OR"; "PA"; "RI"; "SC"; "SD";
  "TN"; "TX"; "UT"; "VT"; "VA"; "WA"; "WV"; "WI"; "WY"
].

Definition VALID_PRODUCT_TYPES : gset string :=
  list_to_set ["Newsletter"; "Calendar"; "Flyer"; "LFP"].

Definition isEmail (v : value) : bool :=
  match v with
  | VStr s => includes s "@" && includes s "."
  | _ => false
  end.

Definition isHttpsUrl (v : value) : bool :=
  match v with
  | VStr s => startsWith s "https://"
  | _ => false
  end.

Definition isState (v : value) : bool :=
  match v with
  | VStr s => Set_has VALID_STATES (VStr (toUpperCase s))
  | _ => false
  end.

Definition requireString (val : value) (label : string) : outcome unit :=
  match val with
  | VStr s =>
      throw_if (String.eqb (trim s) "")
               (Error (label +:+ " must be a non-empty string"))
  | _ => Throw (Error (label +:+ " must be a non-empty string"))
  end.

(** The body of the loop of [validateOrderItems], for the item at index
    [i]. *)
Definition check_item (requireFiles : bool) (i : nat) (item : value)
  : outcome unit :=
  let prefix := "orderItems[" +:+ pretty i +:+ "]" in
  throw_if (negb (truthy item) || negb (String.eqb (typeof item) "object")
            || Array_isArray item)
           (Error (prefix +:+ " must be an object")) ;;
  requireString (prop item "sku") (prefix +:+ ".sku") ;;
  throw_if (negb (Set_has VALID_PRODUCT_TYPES (prop item "productType")))
           (Error (prefix +:+
              ".productType must be one of: Newsletter, Calendar, Flyer, LFP")) ;;
  throw_if (negb (Number_isInteger (prop item "quantity"))
            || less (prop item "quantity") 1
            || greater (prop item "quantity") 1000)
           (Error (prefix +:+
              ".quantity must be an integer between 1 and 1000")) ;;
  (if strict_eq_string (prop item "sku") "LFP_CS" then
      throw_if (negb (String.eqb (typeof (prop item "longEdge")) "number")
                || less_or_equal (prop item "longEdge") 0)
               (Error (prefix +:+
                  ".longEdge is required for LFP_CS and must be a positive number")) ;;
      throw_if (negb (String.eqb (typeof (prop item "shortEdge")) "number")
                || less_or_equal (prop item "shortEdge") 0)
               (Error (prefix +:+
                  ".shortEdge is required for LFP_CS and must be a positive number"))
   else Ret ()) ;;
  if requireFiles then
    throw_if (negb (Array_isArray (prop item "files"))
              || (length (elements (prop item "files")) =? 0)%nat)
             (Error (prefix +:+ ".files must be a non-empty array of HTTPS URLs")) ;;
    for_each (λ j file,
        throw_if (negb (isHttpsUrl file))
                 (Error (prefix +:+ ".files[" +:+ pretty j +:+
                           "] must be an HTTPS URL")))
      (elements (prop item "files"))
  else Ret ().

(** [validateOrderItems(items, { requireFiles })]; [requireFiles] is
    [false] when the caller gives no options. *)
Definition validateOrderItems (items : value) (requireFiles : bool)
  : outcome unit :=
  throw_if (negb (Array_isArray items)
            || (length (elements items) =? 0)%nat)
           (Error "orderItems must be a non-empty array") ;;
  for_each (check_item requireFiles) (elements items).

Definition validateCustomer (customer : value) (label : string)
  : outcome unit :=
  throw_if (negb (truthy customer)
            || negb (String.eqb (typeof customer) "object"))
           (Error (label +:+ " is required")) ;;
  requireString (prop customer "firstName") (label +:+ ".firstName") ;;
  requireString (prop customer "lastName") (label +:+ ".lastName") ;;
  requireString (prop customer "address1") (label +:+ ".address1") ;;
  requireString (prop customer "city") (label +:+ ".city") ;;
  requireString (prop customer "zip") (label +:+ ".zip") ;;
  requireString (prop customer "phone") (label +:+ ".phone") ;;
  match prop customer "phone" with
  | VStr phone =>
      throw_if (String.length phone <=? 9)%nat
               (Error (label +:+
                  ".phone must be a string with more than 9 characters"))
  | _ => Throw (Error (label +:+
                  ".phone must be a string with more than 9 characters"))
  end ;;
  throw_if (negb (isEmail (prop customer "email")))
           (Error (label +:+ ".email must be a valid email address")) ;;
  throw_if (negb (isState (prop customer "state")))
           (Error (label +:+
              ".state must be a 2-letter US state code (lower 48 + DC)")) ;;
  (if String.eqb label "shippingCustomer" then
     let emails := prop customer "shipmentTrackingEmail" in
     throw_if (negb (Array_isArray emails)
               || (length (elements emails) <? 1)%nat
               || (3 <? length (elements emails))%nat)
              (Error (label +:+
                 ".shipmentTrackingEmail must be an array of 1-3 email addresses")) ;;
     for_each (λ i email,
         throw_if (negb (isEmail email))
                  (Error (label +:+ ".shipmentTrackingEmail[" +:+ pretty i +:+
                            "] must be a valid email address")))
       (elements emails)
   else Ret ()) ;;
  if String.eqb label "billingCustomer"
     && not_nullish (prop customer "billingInvoiceEmails") then
    let emails := prop customer "billingInvoiceEmails" in
    throw_if (negb (Array_isArray emails))
             (Error (label +:+
                ".billingInvoiceEmails must be an array of email addresses")) ;;
    for_each (λ i email,
        throw_if (negb (isEmail email))
                 (Error (label +:+ ".billingInvoiceEmails[" +:+ pretty i +:+
                           "] must be a valid email address")))
      (elements emails)
  else Ret ().

Definition validateCreateOrderData (orderData : value) : outcome unit :=
  throw_if (negb (truthy orderData)
            || negb (String.eqb (typeof orderData) "object"))
           (Error "orderData must be an object") ;;
  requireString (prop orderData "orderDatetime") "orderDatetime" ;;
  requireString (prop orderData "sourceReferenceOrderNumber")
                "sourceReferenceOrderNumber" ;;
  validateOrderItems (prop orderData "orderItems") true ;;
  validateCustomer (prop orderData "shippingCustomer") "shippingCustomer" ;;
  match prop orderData "sourceSystemBilling" with
  | VBool false =>
      throw_if (negb (truthy (prop orderData "billingCustomer")))
               (Error "billingCustomer is required when sourceSystemBilling is false") ;;
      validateCustomer (prop orderData "billingCustomer") "billingCustomer"
  | _ => Ret ()
  end.

Definition validateOrderNumber (orderNumber : value) : outcome unit :=
  requireString orderNumber "orderNumber".

(** ** [src/PrintApiClient.js] *)

(** What the client asks of its platform: the [URL] constructor, which
    throws a [TypeError] on a string that is no absolute URL, and [fetch],
    whose answer may depend on the request and on the requests made
    before. *)
Record URL := {
  href : string;
  searchParams : list (string * value)
}.

Record Request := {
  method : string;
  url : URL;
  headers : gmap string string;
  body : option value
}.

(** [body] is the value handed to [JSON.stringify], and a search parameter
    the value handed to [searchParams.set]. *)

Record Response := {
  ok : bool;
  status : N;
  json : option value
}.

(** [json] is [None] when [response.json()] throws. *)

Inductive fetched :=
| Rejected (message : string)
| Responded (r : Response).

Record host := {
  URL_valid : string → bool;
  fetch : list Request → Request → fetched
}.

(** [url.searchParams.set(key, v)] *)
Fixpoint params_set (key : string) (v : value) (l : list (string * value))
  : list (string * value) :=
  match l with
  | [] => [(key, v)]
  | (k, x) :: rest =>
      if String.eqb k key
      then (key, v) :: filter (λ p, p.1 ≠ key) rest
      else (k, x) :: params_set key v rest
  end.

(** The own enumerable properties of a value, as an object spread or a
    rest pattern copies them: those of an object, the indexed elements of an
    array, the indexed code units of a string, none for another
    primitive. *)
Definition indexed (l : list value) : gmap string value :=
  list_to_map (imap (λ i x, (pretty i, x)) l).

Fixpoint code_units (s : string) : list value :=
  match s with
  | String c r => VStr (String c "") :: code_units r
  | EmptyString => []
  end.

Definition own_properties (v : value) : gmap string value :=
  match v with
  | VObj o => o
  | VArr l => indexed l
  | VStr s => indexed (code_units s)
  | _ => ∅
  end.

(** [const { error: errorType, message, ...rest } = data], which throws a
    [TypeError] when [data] is [null] or [undefined]. *)
Definition destructure_error (data : value)
  : outcome (value * value * gmap string value) :=
  if not_nullish data
  then Ret (prop data "error", prop data "message",
            delete "error" (delete "message" (own_properties data)))
  else Throw TypeError.

(** [s.replace(/\/+$/, '')] *)
Fixpoint drop_slashes (s : string) : string :=
  match s with
  | String "/" r => drop_slashes r
  | _ => s
  end.

Definition strip_trailing_slashes (s : string) : string :=
  String.rev (drop_slashes (String.rev s)).

(** The private fields of a client. *)
Record PrintApiClient := {
  apiKey : string;
  accountId : string;
  baseUrl : string;
  testMode : value
}.

(** [x = d] in a parameter pattern: the default replaces [undefined]
    only. *)
Definition or_default (v d : value) : value :=
  match v with
  | VUndefined => d
  | _ => v
  end.

(** [constructor({ apiKey, accountId, baseUrl = ..., testMode = false } = {})] *)
Definition constructor (config : value) : outcome PrintApiClient :=
  let config := or_default config (VObj ∅) in
  if negb (not_nullish config) then Throw TypeError else
  let baseUrl := or_default (prop config "baseUrl")
                            (VStr "https://printapi.net/api/v1") in
  let testMode := or_default (prop config "testMode") (VBool false) in
  match prop config "apiKey" with
  | VStr apiKey =>
      if negb (truthy (VStr (trim apiKey)))
      then Throw (Error "apiKey is required") else
      match prop config "accountId" with
      | VStr accountId =>
          if negb (truthy (VStr (trim accountId)))
          then Throw (Error "accountId is required") else
          match baseUrl with
          | VStr baseUrl =>
              Ret {| apiKey := apiKey;
                     accountId := accountId;
                     baseUrl := strip_trailing_slashes baseUrl;
                     testMode := testMode |}
          | _ => Throw TypeError
          end
      | _ => Throw (Error "accountId is required")
      end
  | _ => Throw (Error "apiKey is required")
  end.

(** A method runs on the client object and the network: it reads the
    private fields of [self] and appends to [sent] the requests it hands to
    [fetch].  An [async] method that throws is a rejected promise. *)
Record world := {
  self : PrintApiClient;
  sent : list Request
}.

Definition M (A : Type) : Type := world → outcome A * world.

#[global] Instance M_ret : MRet M := λ A a w, (Ret a, w).
#[global] Instance M_bind : MBind M := λ A B f m w,
  match m w with
  | (Ret a, w') => f a w'
  | (Throw e, w') => (Throw e, w')
  end.

Definition this : M PrintApiClient := λ w, (Ret (self w), w).

Definition raise {A} (e : exn) : M A := λ w, (Throw e, w).

Definition lift {A} (o : outcome A) : M A := λ w, (o, w).

(** The first half of [#request]: the URL and the options handed to
    [fetch]. *)
Definition fetch_arguments (c : PrintApiClient) (method path : string)
    (query : option (list (string * value))) (body : option value)
  : Request :=
  let params :=
    match query with
    | Some entries =>
        fold_left (λ ps '(key, v),
                     if not_nullish v then params_set key v ps else ps)
                  entries []
    | None => []
    end in
  let url := {| href := baseUrl c +:+ path; searchParams := params |} in
  let headers : gmap string string := {[ "X-API-Key" := apiKey c ]} in
  match body with
  | Some b =>
      if truthy b
      then {| method := method; url := url;
              headers := <["Content-Type" := "application/json"]> headers;
              body := Some b |}
      else {| method := method; url := url; headers := headers;
              body := None |}
  | None => {| method := method; url := url; headers := headers;
               body := None |}
  end.

(** The second half of [#request]: what becomes of the answer of
    [fetch]. *)
Definition settle (answer : fetched) : outcome value :=
  match answer with
  | Rejected message =>
      Throw (PrintApiError 0 (VStr "NetworkError")
               (VStr ("Request failed: " +:+ message)) ∅)
  | Responded response =>
      match json response with
      | None =>
          Throw (PrintApiError (status response) (VStr "ParseError")
                   (VStr ("Failed to parse response (HTTP " +:+
                          pretty (status response) +:+ ")")) ∅)
      | Some data =>
          if negb (ok response) then
            '(errorType, message, rest) ← destructure_error data;
            Throw (PrintApiError (status response)
                     (if truthy errorType then errorType
                      else VStr ("HTTP " +:+ pretty (status response)))
                     (if truthy message then message
                      else VStr "Unknown error")
                     rest)
          else Ret data
      end
  end.

Section Client.

Context (h : host).

(** [await fetch(url, options)], with its rejection as a value. *)
Definition await_fetch (r : Request) : M fetched := λ w,
  (Ret (fetch h (sent w) r), {| self := self w; sent := sent w ++ [r] |}).

(** [#request(method, path, { query, body } = {})]; [new URL] throws
    before anything is sent. *)
Definition request (method path : string)
    (query : option (list (string * value))) (body : option value)
  : M value :=
  c ← this;
  (if URL_valid h (baseUrl c +:+ path) then mret () else raise TypeError) ;;
  answer ← await_fetch (fetch_arguments c method path query body);
  lift (settle answer).

Definition getCatalog : M value :=
  request "GET" "/catalog" None None.

Definition checkPricing (orderItems : value) : M value :=
  lift (validateOrderItems orderItems false) ;;
  c ← this;
  request "POST" "/pricing" None
    (Some (VObj {[ "accountId" := VStr (accountId c);
                   "orderItems" := orderItems ]})).

Definition createOrder (orderData : value) : M value :=
  lift (validateCreateOrderData orderData) ;;
  c ← this;
  request "POST" "/order" None
    (Some (VObj (own_properties
                   (if truthy (testMode c)
                    then VObj {[ "testOrder" := VBool true ]}
                    else testMode c)
                 ∪ <["accountId" := VStr (accountId c)]>
                     (own_properties orderData)))).

Definition getOrderStatus (orderNumber : value) : M value :=
  lift (validateOrderNumber orderNumber) ;;
  c ← this;
  request "GET" "/orderstatus"
    (Some [("accountId", VStr (accountId c)); ("orderNumber", orderNumber)])
    None.

Definition cancelOrder (orderNumber : value) : M value :=
  lift (validateOrderNumber orderNumber) ;;
  c ← this;
  request "POST" "/cancelorder" None
    (Some (VObj {[ "accountId" := VStr (accountId c);
                   "orderNumber" := orderNumber ]})).

(** A call of one of the five public methods, and a sequence of calls on
    the same client. *)
Inductive call :=
| GetCatalog
| CheckPricing (orderItems : value)
| CreateOrder (orderData : value)
| GetOrderStatus (orderNumber : value)
| CancelOrder (orderNumber : value).

Definition perform (c : call) : M value :=
  match c with
  | GetCatalog => getCatalog
  | CheckPricing orderItems => checkPricing orderItems
  | CreateOrder orderData => createOrder orderData
  | GetOrderStatus orderNumber => getOrderStatus orderNumber
  | CancelOrder orderNumber => cancelOrder orderNumber
  end.

Fixpoint run (cs : list call) (w : world) : world :=
  match cs with
  | [] => w
  | c :: rest => run rest (snd (perform c w))
  end.

End Client.

(** ** Sample data

    The payloads of the test suite and of the examples, for the concrete
    instances below. *)

Module Sample.

Definition newsletter : gmap string value :=
  {[ "sku" := VStr "TAB_2D_16P"; "productType" := VStr "Newsletter";
     "quantity" := num 100; "staple" := VBool true ]}.

Definition custom_size (longEdge shortEdge : value) : gmap string value :=
  {[ "sku" := VStr "LFP_CS"; "productType" := VStr "LFP";
     "quantity" := num 2;
     "longEdge" := longEdge; "shortEdge" := shortEdge ]}.

Definition customer (state : string) : gmap string value :=
  {[ "firstName" := VStr "John"; "lastName" := VStr "Doe";
     "company" := VStr "Acme Corp"; "phone" := VStr "555-123-4567";
     "email" := VStr "john.doe@acme.com";
     "shipmentTrackingEmail" :=
       VArr [VStr "john.doe@acme.com"; VStr "logistics@acme.com"];
     "address1" := VStr "123 Main St"; "address2" := VStr "Suite 100";
     "city" := VStr "Anytown"; "state" := VStr state;
     "zip" := VStr "12345" ]}.

Definition order (items : list value) : gmap string value :=
  {[ "orderDatetime" := VStr "2024-01-15T10:30:00Z";
     "sourceReferenceOrderNumber" := VStr "YOURORDERNUMBER1234";
     "orderItems" := VArr items;
     "shippingCustomer" := VObj (customer "CA");
     "sourceSystemBilling" := VBool true ]}.

Definition with_files (item : gmap string value) : value :=
  VObj (<["files" := VArr [VStr "https://example.com/test-newsletter.pdf"]]>
          item).

(** An item with two faults: no sku, and a quantity of zero. *)
Definition blank_sku_zero_quantity : value :=
  VObj {[ "sku" := VStr ""; "productType" := VStr "Flyer";
          "quantity" := num 0 ]}.

(** An item whose only fault is its quantity, one and a half. *)
Definition fractional_quantity : value :=
  VObj {[ "sku" := VStr "TAB_1D"; "productType" := VStr "Calendar";
          "quantity" := VNum (Fin (3 # 2));
          "files" := VArr [VStr "https://example.com/calendar.pdf"] ]}.

Definition config (testMode : value) : value :=
  VObj {[ "apiKey" := VStr "key"; "accountId" := VStr "correct-id";
          "testMode" := testMode ]}.

Definition client (testMode : value) : PrintApiClient :=
  {| apiKey := "key"; accountId := "correct-id";
     baseUrl := "https://printapi.net/api/v1"; testMode := testMode |}.

Definition fresh (testMode : value) : world :=
  {| self := client testMode; sent := [] |}.

(** A platform whose [fetch] always settles the same way. *)
Definition answering (a : fetched) : host :=
  {| URL_valid := λ _, true; fetch := λ _ _, a |}.

Definition success (data : value) : fetched :=
  Responded {| ok := true; status := 200; json := Some data |}.


End Sample.

(** ** Vocabulary of the statements *)

(** [local o]: [o] returns or throws a plain [Error]; [fails o]: it throws
    one. *)
Definition local (o : outcome unit) : Prop :=
  match o with
  | Ret _ | Throw (Error _) => True
  | Throw _ => False
  end.

Definition fails (o : outcome unit) : Prop :=
  match o with
  | Throw (Error _) => True
  | _ => False
  end.

(** A request made with the configuration [c]: it carries the credential
    of [c], goes to the base address of [c], names the account of [c]
    wherever it names an account, and, on [/order] with test mode on, is
    marked as a test order. *)
Definition uses_config (c : PrintApiClient) (r : Request) : Prop :=
  headers r !! "X-API-Key" = Some (apiKey c) ∧
  (∃ path, href (url r) = baseUrl c +:+ path) ∧
  (∀ b, body r = Some b → prop b "accountId" = VStr (accountId c)) ∧
  (∀ v, ("accountId", v) ∈ searchParams (url r) → v = VStr (accountId c)) ∧
  (href (url r) = baseUrl c +:+ "/order" → truthy (testMode c) = true →
   ∀ b, body r = Some b → prop b "testOrder" = VBool true).


(** The postal codes of the 48 contiguous states, in the order of the
    names of the states (Alabama to Wyoming). *)
Definition contiguous_states : list string := [
  "AL"; "AZ"; "AR"; "CA"; "CO"; "CT"; "DE"; "FL"; "GA"; "ID"; "IL"; "IN";
  "IA"; "KS"; "KY"; "LA"; "ME"; "MD"; "MA"; "MI"; "MN"; "MS"; "MO"; "MT";
  "NE"; "NV"; "NH"; "NJ"; "NM"; "NY"; "NC"; "ND"; "OH"; "OK"; "OR"; "PA";
  "RI"; "SC"; "SD"; "TN"; "TX"; "UT"; "VT"; "VA"; "WA"; "WV"; "WI"; "WY"
].

(** The same letters in another case: any of the ASCII letters of a string
    may be swapped for its other case. *)
Definition flip_case (c : ascii) : ascii :=
  let n := N_of_ascii c in
  if ((97 <=? n) && (n <=? 122))%N then ascii_of_N (n - 32)
  else if ((65 <=? n) && (n <=? 90))%N then ascii_of_N (n + 32)
  else c.

Inductive case_variant : string → string → Prop :=
| case_variant_empty : case_variant "" ""
| case_variant_same c s t :
    case_variant s t → case_variant (String c s) (String c t)
| case_variant_flip c s t :
    case_variant s t → case_variant (String c s) (String (flip_case c) t).

(** An integer between 1 and 1000. *)
Definition integer_1_1000 (v : value) : Prop :=
  ∃ z : Z, (1 ≤ z ≤ 1000)%Z ∧ ∃ q, v = VNum (Fin q) ∧ (q == inject_Z z)%Q.

(** A string with something else in it than white space. *)
Definition non_blank_string (v : value) : Prop :=
  ∃ s, v = VStr s ∧ trim s ≠ "".

(** The message about the quantity of the item at index [i]. *)
Definition quantity_message (i : nat) : string :=
  ("orderItems[" +:+ pretty i +:+ "]") +:+
  ".quantity must be an integer between 1 and 1000".

(** The quantity of the item at index [i] is the first thing the loop of
    [validateOrderItems] can object to: the items before it pass, and the
    item is an object with a sku and a known product type. *)
Definition reaches_quantity (requireFiles : bool) (items : list value)
    (i : nat) : Prop :=
  (∀ j x, j < i → items !! j = Some x → check_item requireFiles j x = Ret ()) ∧
  ∃ o, items !! i = Some (VObj o) ∧
       non_blank_string (prop (VObj o) "sku") ∧
       Set_has VALID_PRODUCT_TYPES (prop (VObj o) "productType") = true.

(** A strictly positive number: a number above zero, which NaN is not. *)
Definition positive_number (v : value) : Prop :=
  ∃ n, v = VNum n ∧ number_lt (Fin 0) n = true.

(** The local validation a call starts with, the path it asks for, and the
    request it hands to [fetch] on the client [c]. *)
Definition validation_of (k : call) : outcome unit :=
  match k with
  | GetCatalog => Ret ()
  | CheckPricing orderItems => validateOrderItems orderItems false
  | CreateOrder orderData => validateCreateOrderData orderData
  | GetOrderStatus orderNumber | CancelOrder orderNumber =>
      validateOrderNumber orderNumber
  end.

Definition path_of (k : call) : string :=
  match k with
  | GetCatalog => "/catalog"
  | CheckPricing _ => "/pricing"
  | CreateOrder _ => "/order"
  | GetOrderStatus _ => "/orderstatus"
  | CancelOrder _ => "/cancelorder"
  end.

Definition request_of (c : PrintApiClient) (k : call) : Request :=
  match k with
  | GetCatalog => fetch_arguments c "GET" "/catalog" None None
  | CheckPricing orderItems =>
      fetch_arguments c "POST" "/pricing" None
        (Some (VObj {[ "accountId" := VStr (accountId c);
                       "orderItems" := orderItems ]}))
  | CreateOrder orderData =>
      fetch_arguments c "POST" "/order" None
        (Some (VObj (own_properties
                       (if truthy (testMode c)
                        then VObj {[ "testOrder" := VBool true ]}
                        else testMode c)
                     ∪ <["accountId" := VStr (accountId c)]>
                         (own_properties orderData))))
  | GetOrderStatus orderNumber =>
      fetch_arguments c "GET" "/orderstatus"
        (Some [("accountId", VStr (accountId c));
               ("orderNumber", orderNumber)]) None
  | CancelOrder orderNumber =>
      fetch_arguments c "POST" "/cancelorder" None
        (Some (VObj {[ "accountId" := VStr (accountId c);
                       "orderNumber" := orderNumber ]}))
  end.

(** [n] slashes. *)
Fixpoint slashes (n : nat) : string :=
  match n with
  | 0 => ""
  | S n => String "/" (slashes n)
  end.

(** The code units of a string, as a list. *)
Definition chars : string → list ascii := String.list_ascii_of_string.

(** [s] contains [sub]: some of its consecutive code units are [sub]. *)
Definition contains (s sub : string) : Prop :=
  ∃ before after, s = before +:+ sub +:+ after.

(** A string that starts with ["https://"]. *)
Definition https_url (v : value) : Prop :=
  ∃ rest, v = VStr ("https://" +:+ rest).

(** One of the four product types. *)
Definition known_product_type (v : value) : Prop :=
  v = VStr "Newsletter" ∨ v = VStr "Calendar" ∨ v = VStr "Flyer" ∨
  v = VStr "LFP".

(** An item that [validateOrderItems] lets through: an object with a sku,
    a known product type and a quantity in range; with both dimensions
    when its sku is ["LFP_CS"] (a dimension is let through when it is a
    positive number or NaN); and, when files are required, with a non-empty
    array of HTTPS URLs. *)
Definition valid_item (requireFiles : bool) (item : value) : Prop :=
  (∃ o, item = VObj o) ∧
  non_blank_string (prop item "sku") ∧
  known_product_type (prop item "productType") ∧
  integer_1_1000 (prop item "quantity") ∧
  (prop item "sku" = VStr "LFP_CS" →
   (positive_number (prop item "longEdge")
    ∨ prop item "longEdge" = VNum NaN) ∧
   (positive_number (prop item "shortEdge")
    ∨ prop item "shortEdge" = VNum NaN)) ∧
  (requireFiles = true →
   ∃ files, prop item "files" = VArr files ∧ files ≠ [] ∧
            Forall https_url files).

(** A customer that [validateCustomer] lets through under [label]: an
    object with non-blank names, address, city, zip and phone, a phone of
    more than nine code units, an email and a state that pass [isEmail] and
    [isState]; as shipping customer, with one to three tracking emails; as
    billing customer, with invoice emails that are an array of emails if
    they are there at all. *)
Definition valid_customer (label : string) (customer : value) : Prop :=
  (∃ o, customer = VObj o) ∧
  non_blank_string (prop customer "firstName") ∧
  non_blank_string (prop customer "lastName") ∧
  non_blank_string (prop customer "address1") ∧
  non_blank_string (prop customer "city") ∧
  non_blank_string (prop customer "zip") ∧
  non_blank_string (prop customer "phone") ∧
  (∃ phone, prop customer "phone" = VStr phone ∧ 9 < String.length phone) ∧
  isEmail (prop customer "email") = true ∧
  isState (prop customer "state") = true ∧
  (label = "shippingCustomer" →
   ∃ emails, prop customer "shipmentTrackingEmail" = VArr emails ∧
             1 ≤ length emails ≤ 3 ∧
             Forall (λ email, isEmail email = true) emails) ∧
  (label = "billingCustomer" →
   not_nullish (prop customer "billingInvoiceEmails") = true →
   ∃ emails, prop customer "billingInvoiceEmails" = VArr emails ∧
             Forall (λ email, isEmail email = true) emails).

(** A string with a code unit that is not white space. *)
Definition has_visible (v : value) : Prop :=
  ∃ s, v = VStr s ∧ Exists (λ c, is_white c = false) (chars s).

(** * Properties *)

(** ** How the methods run *)

Section Runs.

Context (h : host).

Lemma request_run method path query body w :
  request h method path query body w =
    if URL_valid h (baseUrl (self w) +:+ path)
    then let r := fetch_arguments (self w) method path query body in
         (settle (fetch h (sent w) r),
          {| self := self w; sent := sent w ++ [r] |})
    else (Throw TypeError, w).
Proof.
  unfold request, mbind, M_bind, this, await_fetch, lift, raise, mret, M_ret.
  destruct (URL_valid h _); [|done]. simpl.
  by destruct (settle _).
Qed.

Lemma validated_run (check : outcome unit) (k : PrintApiClient → M value) w :
  (lift check ;; c ← this; k c) w =
    match check with
    | Ret _ => k (self w) w
    | Throw e => (Throw e, w)
    end.
Proof.
  unfold mbind, M_bind, lift, this. by destruct check.
Qed.

Lemma checkPricing_run orderItems w :
  checkPricing h orderItems w =
    match validateOrderItems orderItems false with
    | Ret _ =>
        request h "POST" "/pricing" None
          (Some (VObj {[ "accountId" := VStr (accountId (self w));
                         "orderItems" := orderItems ]})) w
    | Throw e => (Throw e, w)
    end.
Proof. apply validated_run. Qed.

Lemma createOrder_run orderData w :
  createOrder h orderData w =
    match validateCreateOrderData orderData with
    | Ret _ =>
        request h "POST" "/order" None
          (Some (VObj (own_properties
                         (if truthy (testMode (self w))
                          then VObj {[ "testOrder" := VBool true ]}
                          else testMode (self w))
                       ∪ <["accountId" := VStr (accountId (self w))]>
                           (own_properties orderData)))) w
    | Throw e => (Throw e, w)
    end.
Proof. apply validated_run. Qed.

Lemma getOrderStatus_run orderNumber w :
  getOrderStatus h orderNumber w =
    match validateOrderNumber orderNumber with
    | Ret _ =>
        request h "GET" "/orderstatus"
          (Some [("accountId", VStr (accountId (self w)));
                 ("orderNumber", orderNumber)]) None w
    | Throw e => (Throw e, w)
    end.
Proof. apply validated_run. Qed.

Lemma cancelOrder_run orderNumber w :
  cancelOrder h orderNumber w =
    match validateOrderNumber orderNumber with
    | Ret _ =>
        request h "POST" "/cancelorder" None
          (Some (VObj {[ "accountId" := VStr (accountId (self w));
                         "orderNumber" := orderNumber ]})) w
    | Throw e => (Throw e, w)
    end.
Proof. apply validated_run. Qed.

End Runs.

(** A value that is not truthy has no own enumerable property: spreading
    it adds nothing. *)
Lemma own_properties_falsy v : truthy v = false → own_properties v = ∅.
Proof.
  by destruct v as [| |[]|[| | |q]|[|a s]|l|o].
Qed.

(** What the constructor stores. *)
Lemma constructor_fields config c :
  constructor config = Ret c →
  prop config "apiKey" = VStr (apiKey c) ∧
  prop config "accountId" = VStr (accountId c) ∧
  testMode c = or_default (prop config "testMode") (VBool false).
Proof.
  unfold constructor.
  destruct config as [| |b|n|s|l|o]; simpl; try done.
  destruct (default VUndefined (o !! "apiKey")) as [| |?|?|k|?|?]; try done.
  destruct (negb _); [done|].
  destruct (default VUndefined (o !! "accountId")) as [| |?|?|a|?|?]; try done.
  destruct (negb _); [done|].
  destruct (or_default (default VUndefined (o !! "baseUrl")) _); try done.
  by intros [= <-].
Qed.

(** A payload that passes [validateCreateOrderData] is an object. *)
Lemma validateCreateOrderData_object orderData :
  validateCreateOrderData orderData = Ret () → ∃ o, orderData = VObj o.
Proof.
  destruct orderData as [| |[]|[| | |q]|[|a s]|l|o]; try done; eauto.
  unfold validateCreateOrderData. simpl. by destruct (negb _).
Qed.

Section CreateOrder.

Context (h : host).

(** The request that a validated [createOrder] sends. *)
Lemma createOrder_sends o w :
  validateCreateOrderData (VObj o) = Ret () →
  URL_valid h (baseUrl (self w) +:+ "/order") = true →
  ∃ r b,
    sent (createOrder h (VObj o) w).2 = sent w ++ [r] ∧
    method r = "POST" ∧
    href (url r) = baseUrl (self w) +:+ "/order" ∧
    body r = Some (VObj b) ∧
    b = own_properties
          (if truthy (testMode (self w))
           then VObj {[ "testOrder" := VBool true ]}
           else testMode (self w))
        ∪ <["accountId" := VStr (accountId (self w))]> o.
Proof.
  intros Hv Hu. rewrite createOrder_run, Hv, request_run, Hu. simpl.
  eexists _, _. repeat split.
Qed.

(** C1. Every [createOrder] call on a client constructed with account
    identifier [A] sends a [POST /order] whose JSON body has [accountId]
    equal to [A], whatever [accountId] the caller's payload carries: the
    configured value overwrites it. *)
Theorem createOrder_accountId_overrides config c orderData w :
  constructor config = Ret c →
  self w = c →
  validateCreateOrderData orderData = Ret () →
  URL_valid h (baseUrl c +:+ "/order") = true →
  ∃ A r b,
    prop config "accountId" = VStr A ∧
    sent (createOrder h orderData w).2 = sent w ++ [r] ∧
    method r = "POST" ∧
    href (url r) = baseUrl c +:+ "/order" ∧
    body r = Some (VObj b) ∧
    b !! "accountId" = Some (VStr A).
Proof.
  intros Hc <- Hv Hu.
  destruct (validateCreateOrderData_object _ Hv) as [o ->].
  destruct (constructor_fields _ _ Hc) as (_ & HA & _).
  destruct (createOrder_sends o w Hv Hu) as (r & b & Hs & Hm & Hh & Hb & ->).
  exists (accountId (self w)), r. eexists.
  do 4 (split; [done|]). split; [exact Hb|].
  apply lookup_union_Some_raw. right. split.
  - destruct (truthy (testMode (self w))) eqn:Ht; simpl.
    + by rewrite lookup_singleton_ne.
    + by rewrite (own_properties_falsy _ Ht).
  - apply lookup_insert_eq.
Qed.

(** C2. On a client constructed with [testMode: true] every [createOrder]
    call sends a body whose [testOrder] is [true], also when the payload
    says [testOrder: false]; with [testMode: false] (or none) the client
    injects nothing and [testOrder] is as the caller gave it. *)
Theorem createOrder_testOrder_forced config c orderData w :
  constructor config = Ret c →
  self w = c →
  validateCreateOrderData orderData = Ret () →
  URL_valid h (baseUrl c +:+ "/order") = true →
  ∃ o r b,
    orderData = VObj o ∧
    sent (createOrder h orderData w).2 = sent w ++ [r] ∧
    body r = Some (VObj b) ∧
    (prop config "testMode" = VBool true →
       b !! "testOrder" = Some (VBool true)) ∧
    (prop config "testMode" = VBool false ∨
     prop config "testMode" = VUndefined →
       b !! "testOrder" = o !! "testOrder").
Proof.
  intros Hc <- Hv Hu.
  destruct (validateCreateOrderData_object _ Hv) as [o ->].
  destruct (constructor_fields _ _ Hc) as (_ & _ & HT).
  destruct (createOrder_sends o w Hv Hu) as (r & b & Hs & _ & _ & Hb & ->).
  exists o, r. eexists. split; [done|]. split; [done|]. split; [exact Hb|].
  split.
  - intros Ht. rewrite HT, Ht. simpl.
    apply lookup_union_Some_raw. left. apply lookup_singleton_eq.
  - intros Ht.
    assert (testMode (self w) = VBool false) as ->
      by (rewrite HT; by destruct Ht as [-> | ->]).
    simpl. rewrite (left_id_L ∅ (∪)). by rewrite lookup_insert_ne.
Qed.

End CreateOrder.

Lemma createOrder_accountId_overrides_witness :
  ∃ A r b,
    prop (Sample.config (VBool false)) "accountId" = VStr A ∧
    sent (createOrder (Sample.answering (Sample.success (VObj ∅)))
            (VObj (<["accountId" := VStr "wrong-id"]>
                     (Sample.order [Sample.with_files Sample.newsletter])))
            (Sample.fresh (VBool false))).2
      = sent (Sample.fresh (VBool false)) ++ [r] ∧
    method r = "POST" ∧
    href (url r) = baseUrl (Sample.client (VBool false)) +:+ "/order" ∧
    body r = Some (VObj b) ∧
    b !! "accountId" = Some (VStr A).
Proof.
  apply (createOrder_accountId_overrides
           (Sample.answering (Sample.success (VObj ∅)))
           (Sample.config (VBool false)) (Sample.client (VBool false)));
    vm_compute; reflexivity.
Defined.

Lemma createOrder_testOrder_forced_witness :
  ∃ o r b,
    VObj (<["testOrder" := VBool false]>
            (Sample.order [Sample.with_files Sample.newsletter])) = VObj o ∧
    sent (createOrder (Sample.answering (Sample.success (VObj ∅)))
            (VObj (<["testOrder" := VBool false]>
                     (Sample.order [Sample.with_files Sample.newsletter])))
            (Sample.fresh (VBool true))).2
      = sent (Sample.fresh (VBool true)) ++ [r] ∧
    body r = Some (VObj b) ∧
    (prop (Sample.config (VBool true)) "testMode" = VBool true →
       b !! "testOrder" = Some (VBool true)) ∧
    (prop (Sample.config (VBool true)) "testMode" = VBool false ∨
     prop (Sample.config (VBool true)) "testMode" = VUndefined →
       b !! "testOrder" = o !! "testOrder").
Proof.
  apply (createOrder_testOrder_forced
           (Sample.answering (Sample.success (VObj ∅)))
           (Sample.config (VBool true)) (Sample.client (VBool true)));
    vm_compute; reflexivity.
Defined.

(** ** The validators throw plain errors only *)

Lemma fails_local o : fails o → local o.
Proof. by destruct o as [|[]]. Qed.

Lemma fails_message o : fails o ↔ ∃ message, o = Throw (Error message).
Proof.
  split; [|by intros [? ->]]. destruct o as [|[]]; try done. eauto.
Qed.

Lemma local_cases o : local o → o = Ret () ∨ fails o.
Proof. destruct o as [[]|[]]; auto. Qed.

Lemma local_throw_if b message : local (throw_if b (Error message)).
Proof. by destruct b. Qed.

Lemma local_bind (m k : outcome unit) : local m → local k → local (m ;; k).
Proof. by destruct m as [|[]]. Qed.

Lemma fails_bind_l (m k : outcome unit) : fails m → fails (m ;; k).
Proof. by destruct m as [|[]]. Qed.

Lemma fails_bind_r (m k : outcome unit) : local m → fails k → fails (m ;; k).
Proof. by destruct m as [|[]]. Qed.

Lemma local_for_from body l :
  (∀ i x, local (body i x)) → ∀ start, local (for_from start body l).
Proof.
  intros Hb. induction l as [|x l IH]; intros start; simpl; [done|].
  by apply local_bind.
Qed.

Lemma local_requireString val label : local (requireString val label).
Proof.
  destruct val; simpl; try done. apply local_throw_if.
Qed.

Ltac local_steps :=
  repeat first
    [ exact I
    | apply local_throw_if
    | apply local_requireString
    | apply local_bind
    | apply local_for_from; intros
    | match goal with
      | |- local (if ?b then _ else _) => destruct b
      | |- local (match ?v with VUndefined => _ | _ => _ end) => destruct v
      end
    | progress cbv zeta ].

Lemma local_check_item requireFiles i item :
  local (check_item requireFiles i item).
Proof. unfold check_item. local_steps. Qed.

Lemma local_validateOrderItems items requireFiles :
  local (validateOrderItems items requireFiles).
Proof.
  unfold validateOrderItems. local_steps.
Qed.

Lemma local_validateCustomer customer label :
  local (validateCustomer customer label).
Proof. unfold validateCustomer. local_steps. Qed.

Lemma local_validateCreateOrderData orderData :
  local (validateCreateOrderData orderData).
Proof.
  unfold validateCreateOrderData. local_steps.
Qed.

Lemma local_validateOrderNumber orderNumber :
  local (validateOrderNumber orderNumber).
Proof. apply local_requireString. Qed.

(** ** Every method is a validation followed by one exchange *)

Lemma fetch_arguments_credential c method path query body :
  headers (fetch_arguments c method path query body) !! "X-API-Key"
    = Some (apiKey c) ∧
  href (url (fetch_arguments c method path query body)) = baseUrl c +:+ path.
Proof.
  unfold fetch_arguments. destruct body as [b|]; [destruct (truthy b)|];
    simpl; split; try done; try apply lookup_singleton_eq.
Qed.

Lemma fetch_arguments_body c method path query b :
  body (fetch_arguments c method path query (Some (VObj b))) = Some (VObj b).
Proof. done. Qed.

Lemma fetch_arguments_no_body c method path query :
  body (fetch_arguments c method path query None) = None.
Proof. done. Qed.

Lemma fetch_arguments_no_query c method path body :
  searchParams (url (fetch_arguments c method path None body)) = [].
Proof.
  unfold fetch_arguments. by destruct body as [b|]; [destruct (truthy b)|].
Qed.

Section Exchange.

Context (h : host).

(** Either the call throws before the network is touched, or it hands one
    request to [fetch] and settles on the answer. *)
Lemma perform_cases c w :
  (∃ e, perform h c w = (Throw e, w) ∧
        (e = TypeError ∨ ∃ message, e = Error message)) ∨
  (∃ r, uses_config (self w) r ∧
        perform h c w =
          (settle (fetch h (sent w) r),
           {| self := self w; sent := sent w ++ [r] |})).
Proof.
  assert (∀ method path query body,
    uses_config (self w) (fetch_arguments (self w) method path query body) →
    (∃ e, request h method path query body w = (Throw e, w) ∧
          (e = TypeError ∨ ∃ message, e = Error message)) ∨
    (∃ r, uses_config (self w) r ∧
          request h method path query body w =
            (settle (fetch h (sent w) r),
             {| self := self w; sent := sent w ++ [r] |}))) as Hreq.
  { intros method path query body Hu. rewrite request_run.
    destruct (URL_valid h _); [right; eauto | left; eauto]. }
  assert (∀ (check : outcome unit) res, local check →
    (check = Ret () →
       (∃ e, res = (Throw e, w) ∧
             (e = TypeError ∨ ∃ message, e = Error message)) ∨
       (∃ r, uses_config (self w) r ∧
             res = (settle (fetch h (sent w) r),
                    {| self := self w; sent := sent w ++ [r] |}))) →
    (∃ e, match check with Ret _ => res | Throw e => (Throw e, w) end
            = (Throw e, w) ∧
          (e = TypeError ∨ ∃ message, e = Error message)) ∨
    (∃ r, uses_config (self w) r ∧
          match check with Ret _ => res | Throw e => (Throw e, w) end
            = (settle (fetch h (sent w) r),
               {| self := self w; sent := sent w ++ [r] |}))) as Hval.
  { intros check res Hl Hk. destruct check as [[]|[]]; try done; [auto|].
    left. eauto. }
  destruct c as [|orderItems|orderData|orderNumber|orderNumber]; simpl.
  - apply Hreq. unfold uses_config.
    destruct (fetch_arguments_credential (self w) "GET" "/catalog" None None)
      as [-> ->].
    rewrite fetch_arguments_no_body, fetch_arguments_no_query.
    repeat split; eauto; try done. by intros v ?%elem_of_nil.
  - rewrite checkPricing_run.
    apply Hval; [apply local_validateOrderItems|]. intros _.
    apply Hreq. unfold uses_config.
    match goal with |- context [fetch_arguments ?c ?m ?p ?q ?b] =>
      destruct (fetch_arguments_credential c m p q b) as [-> ->] end.
    rewrite fetch_arguments_body, fetch_arguments_no_query.
    repeat split; eauto.
    + by intros b [= <-].
    + by intros v ?%elem_of_nil.
    + by intros [=]%(inj (String.app _)).
  - rewrite createOrder_run.
    apply Hval; [apply local_validateCreateOrderData|]. intros Hv.
    destruct (validateCreateOrderData_object _ Hv) as [o ->].
    apply Hreq. unfold uses_config.
    match goal with |- context [fetch_arguments ?c ?m ?p ?q ?b] =>
      destruct (fetch_arguments_credential c m p q b) as [-> ->] end.
    rewrite fetch_arguments_body, fetch_arguments_no_query.
    repeat split; eauto.
    + intros b [= <-]. simpl.
      assert ((own_properties
                 (if truthy (testMode (self w))
                  then VObj {["testOrder" := VBool true]}
                  else testMode (self w))
               ∪ <["accountId" := VStr (accountId (self w))]> o)
              !! "accountId" = Some (VStr (accountId (self w)))) as ->; [|done].
      apply lookup_union_Some_raw. right. split; [|apply lookup_insert_eq].
      destruct (truthy (testMode (self w))) eqn:Ht; simpl.
      * by rewrite lookup_singleton_ne.
      * by rewrite (own_properties_falsy _ Ht).
    + by intros v ?%elem_of_nil.
    + intros _ Ht b [= <-]. rewrite Ht. simpl.
      by erewrite lookup_union_Some_l; [|apply lookup_singleton_eq].
  - rewrite getOrderStatus_run.
    apply Hval; [apply local_validateOrderNumber|]. intros Hv.
    apply Hreq. unfold uses_config.
    match goal with |- context [fetch_arguments ?c ?m ?p ?q ?b] =>
      destruct (fetch_arguments_credential c m p q b) as [-> ->] end.
    rewrite fetch_arguments_no_body.
    repeat split; eauto; try done.
    intros v. unfold fetch_arguments. simpl.
    destruct (not_nullish orderNumber); simpl.
    + rewrite !elem_of_cons, elem_of_nil. intros [[= ->]|[[=]|[]]]. done.
    + rewrite !elem_of_cons, elem_of_nil. intros [[= ->]|[]]. done.
  - rewrite cancelOrder_run.
    apply Hval; [apply local_validateOrderNumber|]. intros _.
    apply Hreq. unfold uses_config.
    match goal with |- context [fetch_arguments ?c ?m ?p ?q ?b] =>
      destruct (fetch_arguments_credential c m p q b) as [-> ->] end.
    rewrite fetch_arguments_body, fetch_arguments_no_query.
    repeat split; eauto.
    + by intros b [= <-].
    + by intros v ?%elem_of_nil.
    + by intros [=]%(inj (String.app _)).
Qed.


End Exchange.

(** ** Transport and parse failures *)



(** ** The configuration is never written *)

Lemma perform_keeps_self h c w : self (perform h c w).2 = self w.
Proof.
  by destruct (perform_cases h c w) as [(e & -> & _)|(r & _ & ->)].
Qed.

Lemma perform_sends h c w :
  ∃ new, sent (perform h c w).2 = sent w ++ new ∧
         Forall (uses_config (self w)) new.
Proof.
  destruct (perform_cases h c w) as [(e & -> & _)|(r & Hu & ->)]; simpl.
  - exists []. by rewrite app_nil_r.
  - exists [r]. split; [done|]. by apply Forall_singleton.
Qed.

(** C8. The configuration is fixed at construction: no method writes it,
    and after any sequence of calls the client holds the values it was
    given and every request it has sent was made with them. *)
Theorem configuration_is_fixed h cs w :
  self (run h cs w) = self w ∧
  ∃ new, sent (run h cs w) = sent w ++ new ∧
         Forall (uses_config (self w)) new.
Proof.
  revert w. induction cs as [|c cs IH]; intros w; simpl.
  - split; [done|]. exists []. by rewrite app_nil_r.
  - destruct (IH (perform h c w).2) as (Hself & new & Hsent & Hnew).
    rewrite perform_keeps_self in Hself, Hnew.
    destruct (perform_sends h c w) as (first & Hfirst & Hforall).
    split; [done|]. exists (first ++ new). split.
    + by rewrite Hsent, Hfirst, (assoc_L (++)).
    + by apply Forall_app.
Qed.

(** ** Application errors *)





(** ** The state allow-list *)

Lemma upper_flip_case c : upper (flip_case c) = upper c.
Proof. by destruct c as [[] [] [] [] [] [] [] []]. Qed.

Lemma toUpperCase_case_variant s t :
  case_variant s t → toUpperCase t = toUpperCase s.
Proof.
  induction 1 as [|c s t _ IH|c s t _ IH]; simpl; [done| |].
  - by rewrite IH.
  - by rewrite upper_flip_case, IH.
Qed.

Lemma isState_case_variant s t :
  case_variant s t → isState (VStr t) = isState (VStr s).
Proof. intros Hv. unfold isState. by rewrite (toUpperCase_case_variant s t). Qed.

Lemma isState_contiguous code :
  code ∈ contiguous_states ∨ code = "DC" → isState (VStr code) = true.
Proof.
  assert (forallb (λ code, isState (VStr code)) ("DC" :: contiguous_states)
          = true) as Hall by (vm_compute; reflexivity).
  rewrite forallb_forall in Hall. intros Hc. apply Hall.
  apply list_elem_of_In. destruct Hc as [?| ->]; [by right | by left].
Qed.

(** The allow-list of the code is the 48 contiguous states and the
    District of Columbia: 49 codes, Alaska and Hawaii not among them. *)
Lemma VALID_STATES_contiguous :
  VALID_STATES = list_to_set ("DC" :: contiguous_states) ∧
  length contiguous_states = 48 ∧
  size VALID_STATES = 49 ∧
  ("AK" ∉ VALID_STATES) ∧ ("HI" ∉ VALID_STATES).
Proof.
  split; [by vm_compute|]. split; [done|]. split; [by vm_compute|].
  split; apply (bool_decide_unpack _); by vm_compute.
Qed.

(** A customer whose state is refused is refused, whatever the rest of the
    record. *)
Lemma validateCustomer_state_refused customer label :
  isState (prop customer "state") = false →
  fails (validateCustomer customer label).
Proof.
  intros Hs. unfold validateCustomer.
  do 9 (apply fails_bind_r; [local_steps|]).
  apply fails_bind_l. by rewrite Hs.
Qed.

(** C7. A customer whose state is ["AK"] or ["HI"], in any letter case,
    fails validation; each of the codes of the 48 contiguous states and
    ["DC"], in any letter case, passes the state check. *)
Theorem state_allow_list code s :
  case_variant code s →
  (code = "AK" ∨ code = "HI" →
   ∀ customer label,
     prop customer "state" = VStr s →
     fails (validateCustomer customer label)) ∧
  (code ∈ contiguous_states ∨ code = "DC" → isState (VStr s) = true).
Proof.
  intros Hv. split.
  - intros Hc customer label Hs. apply validateCustomer_state_refused.
    rewrite Hs, (isState_case_variant code s Hv).
    by destruct Hc as [-> | ->].
  - intros Hc. rewrite (isState_case_variant code s Hv).
    by apply isState_contiguous.
Qed.

Lemma state_allow_list_witness :
  fails (validateCustomer (VObj (Sample.customer "hI")) "shippingCustomer") ∧
  isState (VStr "nY") = true.
Proof.
  split.
  - refine (proj1 (state_allow_list "HI" "hI" _) _
              (VObj (Sample.customer "hI")) "shippingCustomer" _).
    + apply (case_variant_flip "H" "I" "I"), (case_variant_same "I" "" "").
      apply case_variant_empty.
    + by right.
    + vm_compute; reflexivity.
  - refine (proj2 (state_allow_list "NY" "nY" _) _).
    + apply (case_variant_flip "N" "Y" "Y"), (case_variant_same "Y" "" "").
      apply case_variant_empty.
    + left. apply (bool_decide_unpack _). vm_compute. reflexivity.
Defined.

(** ** Loops *)

Lemma for_from_fails body l i x start :
  (∀ j y, local (body j y)) →
  l !! i = Some x → fails (body (start + i) x) →
  fails (for_from start body l).
Proof.
  intros Hl. revert i start.
  induction l as [|y l IH]; intros [|i] start Hi Hf; simplify_eq/=.
  - apply fails_bind_l. by rewrite Nat.add_0_r in Hf.
  - apply fails_bind_r; [done|]. apply (IH i); [done|].
    by rewrite Nat.add_succ_comm.
Qed.

Lemma for_from_first body l i x e start :
  (∀ j y, j < i → l !! j = Some y → body (start + j) y = Ret ()) →
  l !! i = Some x → body (start + i) x = Throw e →
  for_from start body l = Throw e.
Proof.
  revert i start.
  induction l as [|y l IH]; intros [|i] start Hb Hi He; simplify_eq/=.
  - rewrite Nat.add_0_r in He. by rewrite He.
  - rewrite <-(Nat.add_0_r start) at 1.
    rewrite (Hb 0 y) by (done || lia). simpl.
    apply (IH i); [|done|by rewrite Nat.add_succ_comm].
    intros j z Hj Hz. rewrite Nat.add_succ_comm. apply Hb; [lia|done].
Qed.

Lemma for_from_insert body l i x y start :
  l !! i = Some x → (∀ j, body j y = body j x) →
  for_from start body (<[i:=y]> l) = for_from start body l.
Proof.
  intros Hi Hb. revert i start Hi.
  induction l as [|z l IH]; intros [|i] start Hi; simplify_eq/=.
  - by rewrite Hb.
  - by rewrite (IH i).
Qed.

(** ** Quantities *)

Lemma quantity_test v :
  integer_1_1000 v ↔
  negb (Number_isInteger v) || less v 1 || greater v 1000 = false.
Proof.
  rewrite !orb_false_iff, negb_false_iff. split.
  - intros (z & Hz & q & -> & Hq). simpl.
    rewrite !negb_false_iff, !Qle_bool_iff.
    repeat split.
    + unfold Qeq in Hq. simpl in Hq. rewrite Z.mul_1_r in Hq.
      rewrite Hq, Z.mod_mul by done. done.
    + rewrite Hq, <-Zle_Qle. lia.
    + rewrite Hq, <-Zle_Qle. lia.
  - destruct v as [| |b|[| | |q]|s|l|o]; simpl; try by intros [[??]?].
    rewrite !negb_false_iff, !Qle_bool_iff. intros [[Hm H1] H2].
    apply Z.eqb_eq in Hm.
    assert (q == inject_Z (Qnum q / Z.pos (Qden q)))%Q as Hq.
    { unfold Qeq. simpl. rewrite Z.mul_1_r.
      rewrite Z.mul_comm. by apply Z_div_exact_full_2. }
    exists (Qnum q / Z.pos (Qden q))%Z. split; [|eauto].
    rewrite Hq in H1, H2. change 1%Q with (inject_Z 1) in H1.
    rewrite <-Zle_Qle in H1, H2. lia.
Qed.

Lemma bad_quantity_test v :
  ¬ integer_1_1000 v ↔
  negb (Number_isInteger v) || less v 1 || greater v 1000 = true.
Proof. rewrite quantity_test. by destruct (_ || _). Qed.

Lemma requireString_passes v label :
  requireString v label = Ret () ↔ non_blank_string v.
Proof.
  unfold non_blank_string. destruct v as [| |b|n|s|l|o]; simpl;
    try (split; [done | by intros (? & [=] & _)]).
  destruct (String.eqb_spec (trim s) ""); simpl.
  - split; [done|]. by intros (? & [= <-] & ?).
  - split; [eauto|done].
Qed.

(** An item whose quantity is wrong is refused; the error is about the
    quantity when the item is an object with a sku and a product type. *)
Lemma check_item_bad_quantity requireFiles i item :
  ¬ integer_1_1000 (prop item "quantity") →
  fails (check_item requireFiles i item).
Proof.
  intros Hq%bad_quantity_test. unfold check_item.
  do 3 (apply fails_bind_r; [local_steps|]).
  apply fails_bind_l. by rewrite Hq.
Qed.

Lemma check_item_quantity_message requireFiles i o :
  non_blank_string (prop (VObj o) "sku") →
  Set_has VALID_PRODUCT_TYPES (prop (VObj o) "productType") = true →
  ¬ integer_1_1000 (prop (VObj o) "quantity") →
  check_item requireFiles i (VObj o) = Throw (Error (quantity_message i)).
Proof.
  intros Hs Hp Hq%bad_quantity_test. unfold check_item.
  apply (requireString_passes _
           (("orderItems[" +:+ pretty i +:+ "]") +:+ ".sku")) in Hs.
  cbv zeta. rewrite Hs, Hp, Hq. done.
Qed.

Section Quantity.

Context (h : host).

Lemma validateOrderItems_bad_quantity requireFiles items i item :
  items !! i = Some item →
  ¬ integer_1_1000 (prop item "quantity") →
  fails (validateOrderItems (VArr items) requireFiles).
Proof.
  intros Hi Hq. unfold validateOrderItems.
  apply fails_bind_r; [local_steps|].
  apply (for_from_fails _ _ i item); [apply local_check_item|done|].
  by apply check_item_bad_quantity.
Qed.

Lemma validateOrderItems_quantity_message requireFiles items i item :
  items !! i = Some item →
  ¬ integer_1_1000 (prop item "quantity") →
  reaches_quantity requireFiles items i →
  validateOrderItems (VArr items) requireFiles
    = Throw (Error (quantity_message i)).
Proof.
  intros Hi Hq (Hbefore & o & Ho & Hs & Hp). simplify_eq.
  unfold validateOrderItems. simpl.
  destruct items as [|x items]; [done|]. simpl length. simpl throw_if.
  change (for_each (check_item requireFiles) (x :: items)
          = Throw (Error (quantity_message i))).
  apply (for_from_first _ _ i (VObj o)); [done..|].
  by apply check_item_quantity_message.
Qed.

(** C5, as written, fails: the item below has a quantity of zero, and the
    error that [checkPricing] raises names its sku, not its quantity; the
    order below has the same item, and the error of [createOrder] names the
    date of the order. *)
Lemma bad_quantity_not_always_named :
  Sample.blank_sku_zero_quantity ∈ [Sample.blank_sku_zero_quantity] ∧
  ¬ integer_1_1000 (prop Sample.blank_sku_zero_quantity "quantity") ∧
  checkPricing (Sample.answering (Sample.success (VObj ∅)))
    (VArr [Sample.blank_sku_zero_quantity]) (Sample.fresh (VBool false))
  = (Throw (Error "orderItems[0].sku must be a non-empty string"),
     Sample.fresh (VBool false)) ∧
  includes "orderItems[0].sku must be a non-empty string" "quantity" = false ∧
  createOrder (Sample.answering (Sample.success (VObj ∅)))
    (VObj {[ "orderItems" := VArr [Sample.blank_sku_zero_quantity] ]})
    (Sample.fresh (VBool false))
  = (Throw (Error "orderDatetime must be a non-empty string"),
     Sample.fresh (VBool false)) ∧
  includes "orderDatetime must be a non-empty string" "quantity" = false.
Proof.
  split; [apply list_elem_of_here|]. split.
  - apply bad_quantity_test. vm_compute. reflexivity.
  - vm_compute. repeat split.
Qed.

(** C5, amended. When an item of the sequence has a quantity that is not an
    integer between 1 and 1000, [checkPricing] and [createOrder] raise a
    local validation error and leave the network alone.  The message names
    the index of that item and its quantity field when nothing before the
    quantity is at fault: the items before it are valid, the item is an
    object with a non-blank sku and a known product type and, for
    [createOrder], the order has its date and its reference number. *)
Theorem bad_quantity_rejected_locally w items i item :
  items !! i = Some item →
  ¬ integer_1_1000 (prop item "quantity") →
  (∃ message,
     checkPricing h (VArr items) w = (Throw (Error message), w)) ∧
  (∀ orderData, prop orderData "orderItems" = VArr items →
     ∃ message,
       createOrder h orderData w = (Throw (Error message), w)) ∧
  (reaches_quantity false items i →
     checkPricing h (VArr items) w
       = (Throw (Error (quantity_message i)), w)) ∧
  (∀ orderData, prop orderData "orderItems" = VArr items →
     non_blank_string (prop orderData "orderDatetime") →
     non_blank_string (prop orderData "sourceReferenceOrderNumber") →
     reaches_quantity true items i →
     createOrder h orderData w
       = (Throw (Error (quantity_message i)), w)).
Proof.
  intros Hi Hq. repeat split.
  - pose proof (validateOrderItems_bad_quantity false _ _ _ Hi Hq) as Hf.
    apply fails_message in Hf as [message Hf].
    exists message. by rewrite checkPricing_run, Hf.
  - intros orderData Hitems.
    assert (fails (validateCreateOrderData orderData)) as Hf.
    { unfold validateCreateOrderData.
      do 3 (apply fails_bind_r; [local_steps|]).
      apply fails_bind_l. rewrite Hitems.
      by apply (validateOrderItems_bad_quantity true _ i item). }
    apply fails_message in Hf as [message Hf].
    exists message. by rewrite createOrder_run, Hf.
  - intros Hr. rewrite checkPricing_run.
    by rewrite (validateOrderItems_quantity_message false _ _ _ Hi Hq Hr).
  - intros orderData Hitems Hd Hn Hr. rewrite createOrder_run.
    unfold validateCreateOrderData.
    apply (requireString_passes _ "orderDatetime") in Hd.
    apply (requireString_passes _ "sourceReferenceOrderNumber") in Hn.
    rewrite Hd, Hn, Hitems.
    rewrite (validateOrderItems_quantity_message true _ _ _ Hi Hq Hr).
    destruct orderData; try done.
Qed.

End Quantity.

Lemma bad_quantity_rejected_locally_witness :
  checkPricing (Sample.answering (Sample.success (VObj ∅)))
    (VArr [VObj Sample.newsletter; Sample.fractional_quantity])
    (Sample.fresh (VBool false))
  = (Throw (Error (quantity_message 1)), Sample.fresh (VBool false)) ∧
  createOrder (Sample.answering (Sample.success (VObj ∅)))
    (VObj (Sample.order [Sample.with_files Sample.newsletter;
                         Sample.fractional_quantity]))
    (Sample.fresh (VBool false))
  = (Throw (Error (quantity_message 1)), Sample.fresh (VBool false)).
Proof.
  assert (¬ integer_1_1000 (prop Sample.fractional_quantity "quantity"))
    as Hq by (apply bad_quantity_test; vm_compute; reflexivity).
  assert (∀ rf first,
    check_item rf 0 first = Ret () →
    reaches_quantity rf [first; Sample.fractional_quantity] 1) as Hr.
  { intros rf first Hfirst. split.
    - intros [|j] x Hj Hx; [|lia]. by simplify_eq/=.
    - eexists. split; [reflexivity|]. split; [|vm_compute; reflexivity].
      eexists. split; [vm_compute; reflexivity|]. vm_compute. discriminate. }
  split.
  - refine (proj1 (proj2 (proj2
      (bad_quantity_rejected_locally
         (Sample.answering (Sample.success (VObj ∅)))
         (Sample.fresh (VBool false))
         [VObj Sample.newsletter; Sample.fractional_quantity] 1
         Sample.fractional_quantity eq_refl Hq))) _).
    apply Hr. vm_compute. reflexivity.
  - refine (proj2 (proj2 (proj2
      (bad_quantity_rejected_locally
         (Sample.answering (Sample.success (VObj ∅)))
         (Sample.fresh (VBool false))
         [Sample.with_files Sample.newsletter; Sample.fractional_quantity] 1
         Sample.fractional_quantity eq_refl Hq)))
      (VObj (Sample.order [Sample.with_files Sample.newsletter;
                           Sample.fractional_quantity])) _ _ _ _).
    + vm_compute. reflexivity.
    + eexists. split; [vm_compute; reflexivity|]. vm_compute. discriminate.
    + eexists. split; [vm_compute; reflexivity|]. vm_compute. discriminate.
    + apply Hr. vm_compute. reflexivity.
Defined.

(** ** Dimensions of the custom-size product *)

(** The test on a dimension lets through the positive numbers, and NaN. *)
Lemma dimension_test v :
  negb (String.eqb (typeof v) "number") || less_or_equal v 0 = false ↔
  positive_number v ∨ v = VNum NaN.
Proof.
  unfold positive_number.
  destruct v as [| |b|[| | |q]|s|l|o]; simpl;
    try (split; [done | by intros [(? & [=] & _) | [=]]]).
  - split; [by right | done].
  - split; [left; eauto | done].
  - split; [done | by intros [(? & [= <-] & ?) | [=]]].
  - split.
    + intros Hq. left. eexists. split; [done|]. simpl.
      change 0%Q with (inject_Z 0). by rewrite Hq.
    + intros [(? & [= <-] & Hq) | [=]]. simpl in Hq.
      by apply negb_true_iff in Hq.
Qed.

Lemma prop_Some (o : gmap string value) k v :
  o !! k = Some v → prop (VObj o) k = v.
Proof. intros Hk. simpl. by rewrite Hk. Qed.

(** A custom-size item with a dimension that is absent, not a number, or a
    number that is zero or negative, is refused. *)
Lemma check_item_dimension_refused requireFiles i o :
  o !! "sku" = Some (VStr "LFP_CS") →
  ¬ (positive_number (prop (VObj o) "longEdge")
       ∨ prop (VObj o) "longEdge" = VNum NaN) ∨
  ¬ (positive_number (prop (VObj o) "shortEdge")
       ∨ prop (VObj o) "shortEdge" = VNum NaN) →
  fails (check_item requireFiles i (VObj o)).
Proof.
  intros Hs%prop_Some Hd. unfold check_item.
  do 4 (apply fails_bind_r; [local_steps|]).
  apply fails_bind_l. rewrite Hs. simpl strict_eq_string. cbv iota.
  destruct Hd as [Hd|Hd]; rewrite <-dimension_test in Hd;
    apply not_false_is_true in Hd.
  - apply fails_bind_l. by rewrite Hd.
  - apply fails_bind_r; [local_steps|]. by rewrite Hd.
Qed.

(** With both dimensions positive, a custom-size item that is otherwise in
    order passes. *)
Lemma check_item_dimension_accepted i o :
  o !! "sku" = Some (VStr "LFP_CS") →
  Set_has VALID_PRODUCT_TYPES (prop (VObj o) "productType") = true →
  integer_1_1000 (prop (VObj o) "quantity") →
  positive_number (prop (VObj o) "longEdge") →
  positive_number (prop (VObj o) "shortEdge") →
  check_item false i (VObj o) = Ret ().
Proof.
  intros Hs%prop_Some Hp Hq%quantity_test Hl Hr. unfold check_item.
  assert (negb (String.eqb (typeof (prop (VObj o) "longEdge")) "number")
          || less_or_equal (prop (VObj o) "longEdge") 0 = false) as Hl'
    by (apply dimension_test; by left).
  assert (negb (String.eqb (typeof (prop (VObj o) "shortEdge")) "number")
          || less_or_equal (prop (VObj o) "shortEdge") 0 = false) as Hr'
    by (apply dimension_test; by left).
  cbv zeta. rewrite Hs, Hp, Hq. simpl strict_eq_string. cbv iota.
  rewrite Hl', Hr'. done.
Qed.

(** C6 holds of every dimension but one: [NaN] is a number for [typeof]
    and is not [<= 0], so the test lets it through, although it is not a
    positive number.  Here [checkPricing] accepts a custom-size item whose
    long edge is [NaN] and sends it. *)
Theorem custom_size_NaN_accepted :
  ¬ positive_number (prop (VObj (Sample.custom_size (VNum NaN) (num 36)))
                          "longEdge") ∧
  validateOrderItems
    (VArr [VObj (Sample.custom_size (VNum NaN) (num 36))]) false = Ret () ∧
  validateOrderItems
    (VArr [Sample.with_files (Sample.custom_size (VNum NaN) (num 36))]) true
    = Ret () ∧
  length (sent (checkPricing (Sample.answering (Sample.success (VObj ∅)))
                  (VArr [VObj (Sample.custom_size (VNum NaN) (num 36))])
                  (Sample.fresh (VBool false))).2) = 1.
Proof.
  split; [|vm_compute; repeat split].
  intros (n & Hn & Hpos). vm_compute in Hn. by simplify_eq.
Qed.

(** ** What the loop reads of an item *)

Lemma prop_agree (o o' : gmap string value) k :
  o' !! k = o !! k → prop (VObj o') k = prop (VObj o) k.
Proof. intros Hk. simpl. by rewrite Hk. Qed.

(** The item check reads the dimensions of an item only when its sku is
    ["LFP_CS"], letter for letter. *)
Lemma check_item_other_sku requireFiles i (o o' : gmap string value) :
  o !! "sku" ≠ Some (VStr "LFP_CS") →
  (∀ k, k ≠ "longEdge" → k ≠ "shortEdge" → o' !! k = o !! k) →
  check_item requireFiles i (VObj o') = check_item requireFiles i (VObj o).
Proof.
  intros Hs Hk. unfold check_item. cbv zeta.
  rewrite (prop_agree o o' "sku"), (prop_agree o o' "productType"),
    (prop_agree o o' "quantity"), (prop_agree o o' "files")
    by (by apply Hk).
  assert (strict_eq_string (prop (VObj o) "sku") "LFP_CS" = false) as ->;
    [|done].
  simpl. destruct (o !! "sku") as [[| |b|n|s|l|m]|] eqn:Hsku; simpl; try done.
  apply String.eqb_neq. congruence.
Qed.

(** Without the file requirement, the item check does not read [files]. *)
Lemma check_item_ignores_files i (o : gmap string value) files :
  check_item false i (VObj (<["files" := files]> o))
  = check_item false i (VObj o).
Proof.
  unfold check_item. cbv zeta.
  by rewrite !(prop_agree o (<["files" := files]> o))
    by (by rewrite lookup_insert_ne).
Qed.

Lemma validateOrderItems_insert requireFiles items i x y :
  items !! i = Some x →
  (∀ j, check_item requireFiles j y = check_item requireFiles j x) →
  validateOrderItems (VArr (<[i:=y]> items)) requireFiles
  = validateOrderItems (VArr items) requireFiles.
Proof.
  intros Hi Hxy. unfold validateOrderItems, for_each. simpl.
  by rewrite length_insert, (for_from_insert _ _ _ x).
Qed.

(** C9. The dimensions are required by exact, case-sensitive equality of
    the sku with ["LFP_CS"]: for an item with any other sku (["lfp_cs"],
    another LFP sku) validation does not look at [longEdge] and
    [shortEdge]; whatever they are, and whether they are there or not, the
    result is the same, so their absence does not fail validation. *)
Theorem dimensions_only_for_LFP_CS requireFiles items i
    (o o' : gmap string value) :
  items !! i = Some (VObj o) →
  o !! "sku" ≠ Some (VStr "LFP_CS") →
  (∀ k, k ≠ "longEdge" → k ≠ "shortEdge" → o' !! k = o !! k) →
  validateOrderItems (VArr (<[i := VObj o']> items)) requireFiles
  = validateOrderItems (VArr items) requireFiles.
Proof.
  intros Hi Hs Hk. apply (validateOrderItems_insert _ _ _ (VObj o)); [done|].
  intros j. by apply check_item_other_sku.
Qed.

Lemma dimensions_only_for_LFP_CS_witness :
  validateOrderItems
    (VArr [VObj {[ "sku" := VStr "lfp_cs"; "productType" := VStr "LFP";
                   "quantity" := num 5 ]}]) false
  = Ret ().
Proof.
  refine (eq_trans
    (dimensions_only_for_LFP_CS false
       [VObj {[ "sku" := VStr "lfp_cs"; "productType" := VStr "LFP";
                "quantity" := num 5;
                "longEdge" := num 48; "shortEdge" := num 36 ]}] 0
       {[ "sku" := VStr "lfp_cs"; "productType" := VStr "LFP";
          "quantity" := num 5;
          "longEdge" := num 48; "shortEdge" := num 36 ]}
       {[ "sku" := VStr "lfp_cs"; "productType" := VStr "LFP";
          "quantity" := num 5 ]} eq_refl _ _) _).
  - vm_compute. discriminate.
  - intros k Hl Hs. rewrite !lookup_insert, !lookup_singleton.
    repeat case_decide; by simplify_eq.
  - vm_compute. reflexivity.
Defined.

(** C10. [checkPricing] never looks at the files of an item: it validates
    with the file requirement off, so an item with a [files] field of any
    shape (URLs that are not HTTPS, entries that are not strings) validates
    as it does without one, and when the items are valid the request is
    sent with the items, that field included, in its body. *)
Theorem checkPricing_ignores_files h w items i (o : gmap string value) files :
  items !! i = Some (VObj o) →
  validateOrderItems (VArr (<[i := VObj (<["files" := files]> o)]> items))
    false
  = validateOrderItems (VArr items) false ∧
  (validateOrderItems (VArr items) false = Ret () →
   URL_valid h (baseUrl (self w) +:+ "/pricing") = true →
   ∃ r,
     sent (checkPricing h
             (VArr (<[i := VObj (<["files" := files]> o)]> items)) w).2
       = sent w ++ [r] ∧
     method r = "POST" ∧
     body r = Some (VObj {[
       "accountId" := VStr (accountId (self w));
       "orderItems" :=
         VArr (<[i := VObj (<["files" := files]> o)]> items) ]}) ∧
     prop (VObj (<["files" := files]> o)) "files" = files).
Proof.
  intros Hi.
  assert (validateOrderItems
            (VArr (<[i := VObj (<["files" := files]> o)]> items)) false
          = validateOrderItems (VArr items) false) as Hsame.
  { apply (validateOrderItems_insert _ _ _ (VObj o)); [done|].
    intros j. apply check_item_ignores_files. }
  split; [done|]. intros Hv Hu.
  rewrite checkPricing_run, Hsame, Hv, request_run, Hu. simpl.
  eexists. repeat split. by rewrite lookup_insert_eq.
Qed.

Lemma checkPricing_ignores_files_witness :
  validateOrderItems
    (VArr [VObj (<["files" := VArr [VStr "http://example.com/a.pdf"; num 7]]>
                   Sample.newsletter)]) false
  = Ret () ∧
  ∃ r,
    sent (checkPricing (Sample.answering (Sample.success (VObj ∅)))
            (VArr [VObj (<["files" :=
                             VArr [VStr "http://example.com/a.pdf"; num 7]]>
                           Sample.newsletter)])
            (Sample.fresh (VBool false))).2 = [r] ∧
    body r = Some (VObj {[
      "accountId" := VStr "correct-id";
      "orderItems" :=
        VArr [VObj (<["files" :=
                        VArr [VStr "http://example.com/a.pdf"; num 7]]>
                      Sample.newsletter)] ]}).
Proof.
  destruct (checkPricing_ignores_files
              (Sample.answering (Sample.success (VObj ∅)))
              (Sample.fresh (VBool false))
              [VObj Sample.newsletter] 0 Sample.newsletter
              (VArr [VStr "http://example.com/a.pdf"; num 7]) eq_refl)
    as [Hsame Hsent].
  split.
  - etransitivity; [exact Hsame|]. vm_compute. reflexivity.
  - destruct Hsent as (r & Hs & _ & Hb & _);
      [vm_compute; reflexivity ..|].
    exists r. split; [exact Hs | exact Hb].
Defined.

(** * Further properties of the client *)

(** ** One validation, one exchange *)

Section Calls.

Context (h : host).

(** Every call in one shape: the validation, then [new URL], then the
    one exchange. *)
Lemma perform_run k w :
  perform h k w =
    match validation_of k with
    | Ret _ =>
        if URL_valid h (baseUrl (self w) +:+ path_of k)
        then (settle (fetch h (sent w) (request_of (self w) k)),
              {| self := self w;
                 sent := sent w ++ [request_of (self w) k] |})
        else (Throw TypeError, w)
    | Throw e => (Throw e, w)
    end.
Proof.
  destruct k as [|orderItems|orderData|orderNumber|orderNumber]; simpl.
  - apply request_run.
  - rewrite checkPricing_run.
    destruct (validateOrderItems _ _); [apply request_run | done].
  - rewrite createOrder_run.
    destruct (validateCreateOrderData _); [apply request_run | done].
  - rewrite getOrderStatus_run.
    destruct (validateOrderNumber _); [apply request_run | done].
  - rewrite cancelOrder_run.
    destruct (validateOrderNumber _); [apply request_run | done].
Qed.

Lemma local_validation_of k : local (validation_of k).
Proof.
  destruct k; simpl; [done|..].
  - apply local_validateOrderItems.
  - apply local_validateCreateOrderData.
  - apply local_validateOrderNumber.
  - apply local_validateOrderNumber.
Qed.

(** What [#request] makes of an answer is never a plain [Error], and it
    returns only the body of a success. *)
Lemma settle_not_Error answer message : settle answer ≠ Throw (Error message).
Proof.
  destruct answer as [m|[okay st [data|]]]; simpl; try done.
  destruct okay; simpl; [done|]. unfold destructure_error.
  by destruct (not_nullish data).
Qed.

Lemma settle_Ret answer data :
  settle answer = Ret data ↔
  ∃ response, answer = Responded response ∧
              ok response = true ∧ json response = Some data.
Proof.
  split.
  - destruct answer as [m|[okay st [d|]]]; simpl; try done.
    destruct okay; simpl.
    + intros [= ->]. eauto.
    + unfold destructure_error. by destruct (not_nullish d).
  - intros (response & -> & Hok & Hj). simpl. by rewrite Hj, Hok.
Qed.

(** X1. The kind of the error tells where a call failed.  A plain [Error]
    is the error of the local validation and nothing was sent; a
    [PrintApiError] comes after the one request of the call was handed to
    [fetch]; a returned value is the parsed body of a success answer to
    that request. *)
Theorem error_kind_locates_failure k w :
  (∀ message,
     (perform h k w).1 = Throw (Error message) →
     validation_of k = Throw (Error message) ∧ (perform h k w).2 = w) ∧
  (∀ st type message details,
     (perform h k w).1 = Throw (PrintApiError st type message details) →
     validation_of k = Ret () ∧
     sent (perform h k w).2 = sent w ++ [request_of (self w) k]) ∧
  (∀ data,
     (perform h k w).1 = Ret data →
     validation_of k = Ret () ∧
     sent (perform h k w).2 = sent w ++ [request_of (self w) k] ∧
     ∃ response,
       fetch h (sent w) (request_of (self w) k) = Responded response ∧
       ok response = true ∧ json response = Some data).
Proof.
  rewrite perform_run. pose proof (local_validation_of k) as Hl.
  destruct (validation_of k) as [[]|[m| |]]; try done.
  - destruct (URL_valid h _); simpl.
    + split; [|split].
      * by intros message ?%settle_not_Error.
      * done.
      * intros data Hs%settle_Ret. done.
    + by repeat split.
  - simpl. split; [|done]. by intros message [= ->].
Qed.

(** X2. A success is handed back untouched: when the answer to the request
    of a call is ok and its body parses, the call returns the parsed body,
    whatever it is. *)
Theorem success_returns_body k w response data :
  validation_of k = Ret () →
  URL_valid h (baseUrl (self w) +:+ path_of k) = true →
  fetch h (sent w) (request_of (self w) k) = Responded response →
  ok response = true →
  json response = Some data →
  perform h k w =
    (Ret data,
     {| self := self w; sent := sent w ++ [request_of (self w) k] |}).
Proof.
  intros Hv Hu Hf Hok Hj. rewrite perform_run, Hv, Hu, Hf.
  by rewrite (proj2 (settle_Ret _ data)) by eauto.
Qed.

(** X3. A call makes at most one request, also when that request fails:
    nothing is retried.  After any sequence of calls the client has sent at
    most one request per call. *)
Theorem one_request_per_call cs w :
  ∃ new, sent (run h cs w) = sent w ++ new ∧ length new ≤ length cs.
Proof.
  revert w. induction cs as [|k cs IH]; intros w; simpl.
  - exists []. by rewrite app_nil_r.
  - destruct (IH (perform h k w).2) as (new & Hnew & Hlen).
    rewrite Hnew, perform_run.
    destruct (validation_of k) as [[]|e]; [destruct (URL_valid h _)|]; simpl.
    + exists (request_of (self w) k :: new).
      split; [by rewrite <-(assoc_L (++))|]. simpl. lia.
    + exists new. split; [done|]. lia.
    + exists new. split; [done|]. lia.
Qed.

End Calls.

Lemma error_kind_locates_failure_witness :
  (perform (Sample.answering (Sample.success (VObj ∅)))
     (GetOrderStatus (VStr "")) (Sample.fresh (VBool false))).2
  = Sample.fresh (VBool false).
Proof.
  refine (proj2 (proj1 (error_kind_locates_failure
            (Sample.answering (Sample.success (VObj ∅)))
            (GetOrderStatus (VStr "")) (Sample.fresh (VBool false)))
            "orderNumber must be a non-empty string" _)).
  vm_compute. reflexivity.
Defined.

Lemma success_returns_body_witness :
  (perform (Sample.answering (Sample.success (VObj {[ "grandTotal" := num 365 ]})))
     (CheckPricing (VArr [VObj Sample.newsletter]))
     (Sample.fresh (VBool false))).1
  = Ret (VObj {[ "grandTotal" := num 365 ]}).
Proof.
  refine (f_equal fst (success_returns_body
            (Sample.answering (Sample.success (VObj {[ "grandTotal" := num 365 ]})))
            (CheckPricing (VArr [VObj Sample.newsletter]))
            (Sample.fresh (VBool false))
            {| ok := true; status := 200;
               json := Some (VObj {[ "grandTotal" := num 365 ]}) |}
            (VObj {[ "grandTotal" := num 365 ]}) _ _ _ _ _));
    vm_compute; reflexivity.
Defined.

(** ** Strings as lists of code units *)

Lemma chars_append s t : chars (s +:+ t) = chars s ++ chars t.
Proof.
  unfold chars. induction s as [|c s IH]; simpl; [done|]. by rewrite IH.
Qed.

Lemma chars_inj s t : chars s = chars t → s = t.
Proof.
  unfold chars. intros Hc.
  rewrite <-(String.string_of_list_ascii_of_string s),
    <-(String.string_of_list_ascii_of_string t). by rewrite Hc.
Qed.

Lemma chars_rev_app s t :
  chars (String.rev_app s t) = reverse (chars s) ++ chars t.
Proof.
  revert t. induction s as [|c s IH]; intros t; simpl; [done|].
  by rewrite IH, reverse_cons, <-(assoc_L (++)).
Qed.

Lemma chars_rev s : chars (String.rev s) = reverse (chars s).
Proof. unfold String.rev. by rewrite chars_rev_app, app_nil_r. Qed.

Lemma chars_slashes n : chars (slashes n) = replicate n "/"%char.
Proof. induction n as [|n IH]; simpl; [done|]. by rewrite IH. Qed.

(** ** The base address *)

Lemma drop_slashes_chars s :
  ∃ n, chars s = replicate n "/"%char ++ chars (drop_slashes s).
Proof.
  induction s as [|c s [n IH]]; [by exists 0|].
  destruct (decide (c = "/"%char)) as [->|Hc].
  - exists (S n). simpl. by rewrite IH.
  - exists 0. simpl.
    destruct c as [[] [] [] [] [] [] [] []]; try done.
Qed.

Lemma drop_slashes_head s t : drop_slashes s ≠ String "/" t.
Proof.
  induction s as [|c s IH]; [done|]. simpl.
  destruct c as [[] [] [] [] [] [] [] []]; try done.
Qed.

Lemma strip_trailing_slashes_spec s :
  (∃ n, s = strip_trailing_slashes s +:+ slashes n) ∧
  ∀ t, strip_trailing_slashes s ≠ t +:+ "/".
Proof.
  unfold strip_trailing_slashes. split.
  - destruct (drop_slashes_chars (String.rev s)) as [n Hn].
    exists n. apply chars_inj.
    rewrite chars_append, chars_rev, chars_slashes.
    rewrite <-(reverse_involutive (chars s)), <-chars_rev, Hn.
    by rewrite reverse_app, reverse_replicate.
  - intros t Ht. apply (f_equal chars) in Ht.
    rewrite chars_rev, chars_append in Ht. apply (f_equal reverse) in Ht.
    rewrite reverse_involutive, reverse_app in Ht. simpl in Ht.
    destruct (drop_slashes (String.rev s)) as [|c d] eqn:Hd; [done|].
    simpl in Ht. injection Ht as -> _. by apply drop_slashes_head in Hd.
Qed.

(** ** Construction *)

Lemma truthy_trim s : truthy (VStr (trim s)) = true ↔ trim s ≠ "".
Proof.
  simpl. rewrite negb_true_iff. apply String.eqb_neq.
Qed.

Lemma prop_or_default config k :
  prop (or_default config (VObj ∅)) k = prop config k.
Proof. by destruct config. Qed.

(** What a constructed client was made from. *)
Lemma constructor_Ret config c :
  constructor config = Ret c →
  config ≠ VNull ∧
  prop config "apiKey" = VStr (apiKey c) ∧ trim (apiKey c) ≠ "" ∧
  prop config "accountId" = VStr (accountId c) ∧ trim (accountId c) ≠ "" ∧
  (∃ given,
     or_default (prop config "baseUrl") (VStr "https://printapi.net/api/v1")
       = VStr given ∧
     baseUrl c = strip_trailing_slashes given) ∧
  testMode c = or_default (prop config "testMode") (VBool false).
Proof.
  unfold constructor. rewrite !prop_or_default.
  destruct (not_nullish (or_default config (VObj ∅))) eqn:Hn; [|done].
  cbn [negb].
  destruct (prop config "apiKey") as [| |?|?|k|?|?]; try done.
  destruct (truthy (VStr (trim k))) eqn:Hk; [|done].
  destruct (prop config "accountId") as [| |?|?|a|?|?]; try done.
  destruct (truthy (VStr (trim a))) eqn:Ha; [|done]. cbn [negb].
  destruct (or_default (prop config "baseUrl") _) as [| |?|?|b|?|?];
    try done.
  intros [= <-]. cbn [apiKey accountId baseUrl testMode].
  apply truthy_trim in Hk, Ha.
  split; [by intros ->|]. eauto 10.
Qed.

(** X4. The constructor accepts a configuration exactly when its [apiKey]
    and its [accountId] are strings with something else than white space in
    them and its [baseUrl], if given, is a string; the client then holds
    the two strings as given, the base address without its trailing
    slashes, and the test mode, [false] if none was given. *)
Theorem constructor_accepts config c :
  constructor config = Ret c ↔
  config ≠ VNull ∧
  prop config "apiKey" = VStr (apiKey c) ∧ trim (apiKey c) ≠ "" ∧
  prop config "accountId" = VStr (accountId c) ∧ trim (accountId c) ≠ "" ∧
  (∃ given,
     or_default (prop config "baseUrl") (VStr "https://printapi.net/api/v1")
       = VStr given ∧
     baseUrl c = strip_trailing_slashes given) ∧
  testMode c = or_default (prop config "testMode") (VBool false).
Proof.
  split; [apply constructor_Ret|].
  unfold constructor. rewrite !prop_or_default.
  intros (Hnull & -> & Hk%truthy_trim & -> & Ha%truthy_trim &
          (given & -> & Hb) & Ht).
  assert (not_nullish (or_default config (VObj ∅)) = true) as ->
    by by destruct config.
  rewrite Hk, Ha. cbn [negb].
  destruct c; simpl in *. by rewrite Hb, Ht.
Qed.

(** X5. A configuration without a usable [apiKey] is refused with
    ["apiKey is required"], whatever its account; one with a key and
    without a usable [accountId] with ["accountId is required"].  Usable
    means a string that is not blank. *)
Theorem constructor_requires_credentials config :
  config ≠ VNull →
  (¬ non_blank_string (prop config "apiKey") →
   constructor config = Throw (Error "apiKey is required")) ∧
  (non_blank_string (prop config "apiKey") →
   ¬ non_blank_string (prop config "accountId") →
   constructor config = Throw (Error "accountId is required")).
Proof.
  intros Hnull. unfold constructor, non_blank_string.
  rewrite !prop_or_default.
  assert (not_nullish (or_default config (VObj ∅)) = true) as ->
    by by destruct config.
  cbn [negb]. split.
  - intros Hk.
    destruct (prop config "apiKey") as [| |?|?|k|?|?]; try done.
    destruct (truthy (VStr (trim k))) eqn:Ht; [|done].
    apply truthy_trim in Ht. destruct Hk. eauto.
  - intros (k & -> & Hk%truthy_trim) Ha. rewrite Hk. cbn [negb].
    destruct (prop config "accountId") as [| |?|?|a|?|?]; try done.
    destruct (truthy (VStr (trim a))) eqn:Ht; [|done].
    apply truthy_trim in Ht. destruct Ha. eauto.
Qed.

(** X6. The base address of a client never ends in a slash: it is the
    address given, or the production address if none was given, with all
    its trailing slashes removed and nothing else changed. *)
Theorem constructor_strips_slashes config c :
  constructor config = Ret c →
  (∃ given n,
     or_default (prop config "baseUrl") (VStr "https://printapi.net/api/v1")
       = VStr given ∧
     given = baseUrl c +:+ slashes n) ∧
  (∀ t, baseUrl c ≠ t +:+ "/") ∧
  (prop config "baseUrl" = VUndefined →
   baseUrl c = "https://printapi.net/api/v1").
Proof.
  intros (_ & _ & _ & _ & _ & (given & Hg & Hb) & _)%constructor_Ret.
  destruct (strip_trailing_slashes_spec given) as [[n Hn] Hend].
  rewrite Hb. split; [|split].
  - by exists given, n.
  - done.
  - intros Hu. rewrite Hu in Hg. simpl in Hg. by injection Hg as <-.
Qed.

Lemma constructor_accepts_witness :
  constructor (Sample.config (VBool true)) = Ret (Sample.client (VBool true)).
Proof.
  apply (constructor_accepts (Sample.config (VBool true))
           (Sample.client (VBool true))).
  split; [done|].
  split; [vm_compute; reflexivity|]. split; [vm_compute; discriminate|].
  split; [vm_compute; reflexivity|]. split; [vm_compute; discriminate|].
  split; [|vm_compute; reflexivity].
  eexists. split; vm_compute; reflexivity.
Defined.

Lemma constructor_requires_credentials_witness :
  constructor (VObj {[ "apiKey" := VStr "   "; "accountId" := VStr "123" ]})
  = Throw (Error "apiKey is required") ∧
  constructor (VObj {[ "apiKey" := VStr "key"; "accountId" := num 123 ]})
  = Throw (Error "accountId is required").
Proof.
  split.
  - refine (proj1 (constructor_requires_credentials
              (VObj {[ "apiKey" := VStr "   "; "accountId" := VStr "123" ]})
              _) _); [done|].
    intros (s & Hs & Ht). vm_compute in Hs. injection Hs as <-.
    by vm_compute in Ht.
  - refine (proj2 (constructor_requires_credentials
              (VObj {[ "apiKey" := VStr "key"; "accountId" := num 123 ]})
              _) _ _); [done| |].
    + exists "key". split; [vm_compute; reflexivity|]. vm_compute. discriminate.
    + intros (s & Hs & _). vm_compute in Hs. discriminate.
Defined.

Lemma constructor_strips_slashes_witness :
  ∃ given n,
    or_default
      (prop (VObj {[ "apiKey" := VStr "key"; "accountId" := VStr "123";
                     "baseUrl" := VStr "https://custom.example.com/api///" ]})
            "baseUrl")
      (VStr "https://printapi.net/api/v1") = VStr given ∧
    given = "https://custom.example.com/api" +:+ slashes n.
Proof.
  refine (proj1 (constructor_strips_slashes
    (VObj {[ "apiKey" := VStr "key"; "accountId" := VStr "123";
             "baseUrl" := VStr "https://custom.example.com/api///" ]})
    {| apiKey := "key"; accountId := "123";
       baseUrl := "https://custom.example.com/api";
       testMode := VBool false |} _)).
  vm_compute. reflexivity.
Defined.

(** ** The requests on the wire *)

Lemma elem_of_params_set p key v l :
  p ∈ params_set key v l → p = (key, v) ∨ p ∈ l.
Proof.
  induction l as [|[k x] l IH]; simpl.
  - intros ->%list_elem_of_singleton. by left.
  - destruct (String.eqb k key).
    + rewrite elem_of_cons, list_elem_of_filter.
      intros [->|[_ Hp]]; [by left|]. right. by right.
    + rewrite !elem_of_cons. intros [->|Hp]; [by right; left|].
      destruct (IH Hp) as [->|?]; [by left|]. right. by right.
Qed.

Lemma params_set_self key v l : (key, v) ∈ params_set key v l.
Proof.
  induction l as [|[k x] l IH]; simpl; [apply list_elem_of_here|].
  destruct (String.eqb k key); [apply list_elem_of_here|].
  by apply list_elem_of_further.
Qed.

Lemma params_set_other p key v l :
  p ∈ l → p.1 ≠ key → p ∈ params_set key v l.
Proof.
  intros Hp Hk. induction l as [|[k x] l IH]; simpl;
    [by apply elem_of_nil in Hp|].
  apply elem_of_cons in Hp as [->|Hp].
  - simpl in Hk. apply String.eqb_neq in Hk. rewrite Hk.
    apply list_elem_of_here.
  - destruct (String.eqb k key).
    + apply list_elem_of_further, list_elem_of_filter. by split.
    + by apply list_elem_of_further, IH.
Qed.

Section Wire.

Context (h : host).

(** The request of a call that reached [fetch]. *)
Lemma perform_sent k w r :
  sent (perform h k w).2 = sent w ++ [r] →
  r = request_of (self w) k ∧
  validation_of k = Ret () ∧
  URL_valid h (baseUrl (self w) +:+ path_of k) = true.
Proof.
  assert (sent w ≠ sent w ++ [r]) as Hne.
  { intros Hs. apply (f_equal length) in Hs.
    rewrite length_app in Hs. simpl in Hs. lia. }
  rewrite perform_run.
  destruct (validation_of k) as [[]|e]; [|done].
  destruct (URL_valid h _); [|done]. simpl.
  by intros [= ->]%(inj (app _)).
Qed.

(** X7. A request carries a JSON content type exactly when it carries a
    body: the catalogue and the order status are asked for with [GET],
    without a body and with the credential as their only header; the other
    three calls [POST] an object, with the credential and
    ["Content-Type: application/json"]. *)
Theorem content_type_only_with_body k w r :
  sent (perform h k w).2 = sent w ++ [r] →
  (method r = "GET" ∧ body r = None ∧
   headers r = {[ "X-API-Key" := apiKey (self w) ]} ∧
   (k = GetCatalog ∨ ∃ n, k = GetOrderStatus n)) ∨
  (method r = "POST" ∧ (∃ b, body r = Some (VObj b)) ∧
   headers r = <["Content-Type" := "application/json"]>
                 {[ "X-API-Key" := apiKey (self w) ]} ∧
   ∃ v, k = CheckPricing v ∨ k = CreateOrder v ∨ k = CancelOrder v).
Proof.
  intros (-> & _ & _)%perform_sent.
  destruct k; simpl; [left|right|right|left|right]; naive_solver.
Qed.

(** X8. A query parameter whose value is [null] or [undefined] is left
    out of the URL: the search parameters of the request are among the
    entries of the query that are neither, and when no name comes twice
    they are all of them. *)
Theorem nullish_query_values_omitted method path entries body w r :
  sent (request h method path (Some entries) body w).2 = sent w ++ [r] →
  (∀ key v, (key, v) ∈ searchParams (url r) →
     not_nullish v = true ∧ (key, v) ∈ entries) ∧
  (NoDup entries.*1 →
   ∀ key v, (key, v) ∈ entries → not_nullish v = true →
     (key, v) ∈ searchParams (url r)).
Proof.
  rewrite request_run. destruct (URL_valid h _); simpl.
  2:{ intros Hs. apply (f_equal length) in Hs.
      rewrite length_app in Hs. simpl in Hs. lia. }
  intros [= <-]%(inj (app _)).
  set (f := λ (ps : list (string * value)) '(key, v),
              if not_nullish v then params_set key v ps else ps).
  assert (searchParams (url (fetch_arguments (self w) method path
                               (Some entries) body))
          = fold_left f entries []) as ->.
  { unfold fetch_arguments. by destruct body as [b|]; [destruct (truthy b)|]. }
  split.
  - assert (∀ acc p, p ∈ fold_left f entries acc →
              p ∈ acc ∨ (p ∈ entries ∧ not_nullish p.2 = true)) as Hin.
    { induction entries as [|[k x] es IH]; intros acc p; simpl; [by left|].
      intros [Hp|[Hp Hn]]%IH.
      - destruct (not_nullish x) eqn:Hx; [|by left].
        apply elem_of_params_set in Hp as [->|Hp]; [|by left].
        right. split; [apply list_elem_of_here | done].
      - right. split; [by apply list_elem_of_further | done]. }
    intros key v [[]%elem_of_nil|[??]]%Hin. done.
  - assert (∀ es acc p, p ∈ acc → p.1 ∉ es.*1 → p ∈ fold_left f es acc)
      as Hkeep.
    { induction es as [|[k x] es IH]; intros acc p Hp Hk; simpl; [done|].
      apply IH; [|by intros ?; apply Hk; right].
      destruct (not_nullish x); [|done].
      apply params_set_other; [done|]. intros Heq. apply Hk.
      rewrite Heq. apply list_elem_of_here. }
    intros Hnd key v Hin Hn. generalize (@nil (string * value)).
    induction entries as [|[k x] es IH]; intros acc; [by apply elem_of_nil in Hin|].
    apply NoDup_cons in Hnd as [Hk Hnd]. simpl.
    apply elem_of_cons in Hin as [[= <- <-]|Hin].
    + apply Hkeep; [|done]. rewrite Hn. apply params_set_self.
    + by apply IH.
Qed.

(** X9. The catalogue is asked for with the credential alone: one [GET] of
    [<base>/catalog] with no query, no body and no account anywhere.  There
    is no local validation, so the call never fails with a plain [Error];
    when [<base>/catalog] is no URL it throws a [TypeError] and sends
    nothing. *)
Theorem getCatalog_request w :
  getCatalog h w =
    (if URL_valid h (baseUrl (self w) +:+ "/catalog")
     then
       let r := {| method := "GET";
                   url := {| href := baseUrl (self w) +:+ "/catalog";
                             searchParams := [] |};
                   headers := {[ "X-API-Key" := apiKey (self w) ]};
                   body := None |} in
       (settle (fetch h (sent w) r),
        {| self := self w; sent := sent w ++ [r] |})
     else (Throw TypeError, w)) ∧
  ∀ message, (getCatalog h w).1 ≠ Throw (Error message).
Proof.
  unfold getCatalog. rewrite request_run. split; [done|].
  intros message. destruct (URL_valid h _); simpl; [|done].
  apply settle_not_Error.
Qed.

(** X10. [getOrderStatus] refuses an order number that is not a string or
    is blank, with ["orderNumber must be a non-empty string"] and without a
    request; any other order number goes out in one [GET] of
    [<base>/orderstatus] whose query is the configured account and the
    order number, in that order, with no body. *)
Theorem getOrderStatus_request orderNumber w :
  (¬ non_blank_string orderNumber →
   getOrderStatus h orderNumber w =
     (Throw (Error "orderNumber must be a non-empty string"), w)) ∧
  (non_blank_string orderNumber →
   URL_valid h (baseUrl (self w) +:+ "/orderstatus") = true →
   ∃ r,
     getOrderStatus h orderNumber w =
       (settle (fetch h (sent w) r),
        {| self := self w; sent := sent w ++ [r] |}) ∧
     r = {| method := "GET";
            url := {| href := baseUrl (self w) +:+ "/orderstatus";
                      searchParams :=
                        [("accountId", VStr (accountId (self w)));
                         ("orderNumber", orderNumber)] |};
            headers := {[ "X-API-Key" := apiKey (self w) ]};
            body := None |}).
Proof.
  rewrite getOrderStatus_run. unfold validateOrderNumber. split.
  - intros Hn. pose proof (local_requireString orderNumber "orderNumber") as Hl.
    destruct (requireString orderNumber "orderNumber") as [[]|e] eqn:He.
    + destruct Hn. by apply (requireString_passes _ "orderNumber").
    + destruct orderNumber as [| |?|?|s|?|?]; simpl in He; simplify_eq; try done.
      destruct (String.eqb (trim s) ""); simpl in He; by simplify_eq.
  - intros Hn Hu. pose proof Hn as (s & -> & Hs).
    apply (requireString_passes _ "orderNumber") in Hn. rewrite Hn.
    rewrite request_run, Hu. eexists. split; [done|]. done.
Qed.

(** X11. [cancelOrder] refuses the same order numbers in the same way; any
    other goes out in one [POST] of [<base>/cancelorder] whose body is the
    configured account and the order number, and nothing else. *)
Theorem cancelOrder_request orderNumber w :
  (¬ non_blank_string orderNumber →
   cancelOrder h orderNumber w =
     (Throw (Error "orderNumber must be a non-empty string"), w)) ∧
  (non_blank_string orderNumber →
   URL_valid h (baseUrl (self w) +:+ "/cancelorder") = true →
   ∃ r,
     cancelOrder h orderNumber w =
       (settle (fetch h (sent w) r),
        {| self := self w; sent := sent w ++ [r] |}) ∧
     r = {| method := "POST";
            url := {| href := baseUrl (self w) +:+ "/cancelorder";
                      searchParams := [] |};
            headers := <["Content-Type" := "application/json"]>
                         {[ "X-API-Key" := apiKey (self w) ]};
            body := Some (VObj {[
              "accountId" := VStr (accountId (self w));
              "orderNumber" := orderNumber ]}) |}).
Proof.
  rewrite cancelOrder_run. unfold validateOrderNumber. split.
  - intros Hn. pose proof (local_requireString orderNumber "orderNumber") as Hl.
    destruct (requireString orderNumber "orderNumber") as [[]|e] eqn:He.
    + destruct Hn. by apply (requireString_passes _ "orderNumber").
    + destruct orderNumber as [| |?|?|s|?|?]; simpl in He; simplify_eq; try done.
      destruct (String.eqb (trim s) ""); simpl in He; by simplify_eq.
  - intros Hn Hu.
    apply (requireString_passes _ "orderNumber") in Hn. rewrite Hn.
    rewrite request_run, Hu. eexists. split; [done|]. done.
Qed.

(** X12. [createOrder] passes the payload on: every field of the caller's
    order other than [accountId] and [testOrder] is in the body of the
    request with the value the caller gave it, and the body has no other
    field. *)
Theorem createOrder_passes_payload o w r :
  sent (createOrder h (VObj o) w).2 = sent w ++ [r] →
  ∃ b, body r = Some (VObj b) ∧
       ∀ key, key ≠ "accountId" → key ≠ "testOrder" → b !! key = o !! key.
Proof.
  intros (-> & _ & _)%(perform_sent (CreateOrder (VObj o))).
  eexists. split; [done|]. intros key Ha Ht. simpl.
  rewrite lookup_union_r.
  - by rewrite lookup_insert_ne.
  - destruct (truthy (testMode (self w))) eqn:Htm; simpl.
    + by rewrite lookup_singleton_ne.
    + by rewrite (own_properties_falsy _ Htm).
Qed.

End Wire.

Lemma content_type_only_with_body_witness :
  headers (request_of (Sample.client (VBool false))
             (CheckPricing (VArr [VObj Sample.newsletter])))
  = <["Content-Type" := "application/json"]> {[ "X-API-Key" := "key" ]} ∧
  headers (request_of (Sample.client (VBool false)) GetCatalog)
  = {[ "X-API-Key" := "key" ]}.
Proof.
  split.
  - destruct (content_type_only_with_body
                (Sample.answering (Sample.success (VObj ∅)))
                (CheckPricing (VArr [VObj Sample.newsletter]))
                (Sample.fresh (VBool false))
                (request_of (Sample.client (VBool false))
                   (CheckPricing (VArr [VObj Sample.newsletter]))))
      as [(Hm & _)|(_ & _ & Hh & _)];
      [vm_compute; reflexivity | discriminate Hm | exact Hh].
  - destruct (content_type_only_with_body
                (Sample.answering (Sample.success (VObj ∅)))
                GetCatalog (Sample.fresh (VBool false))
                (request_of (Sample.client (VBool false)) GetCatalog))
      as [(_ & _ & Hh & _)|(Hm & _)];
      [vm_compute; reflexivity | exact Hh | discriminate Hm].
Defined.

Lemma nullish_query_values_omitted_witness :
  ∀ key v,
    (key, v) ∈ searchParams (url
      (fetch_arguments (Sample.client (VBool false)) "GET" "/orderstatus"
         (Some [("accountId", VStr "correct-id"); ("orderNumber", VNull)])
         None)) →
    not_nullish v = true ∧
    (key, v) ∈ [("accountId", VStr "correct-id"); ("orderNumber", VNull)].
Proof.
  refine (proj1 (nullish_query_values_omitted
    (Sample.answering (Sample.success (VObj ∅))) "GET" "/orderstatus"
    [("accountId", VStr "correct-id"); ("orderNumber", VNull)] None
    (Sample.fresh (VBool false))
    (fetch_arguments (Sample.client (VBool false)) "GET" "/orderstatus"
       (Some [("accountId", VStr "correct-id"); ("orderNumber", VNull)])
       None) _)).
  vm_compute. reflexivity.
Defined.

Lemma getOrderStatus_request_witness :
  getOrderStatus (Sample.answering (Sample.success (VObj ∅)))
    (VStr "  ") (Sample.fresh (VBool false))
  = (Throw (Error "orderNumber must be a non-empty string"),
     Sample.fresh (VBool false)) ∧
  ∃ r,
    getOrderStatus (Sample.answering (Sample.success (VObj ∅)))
      (VStr "ATEST-0000001") (Sample.fresh (VBool false))
    = (settle (Sample.success (VObj ∅)),
       {| self := Sample.client (VBool false); sent := [r] |}) ∧
    searchParams (url r)
    = [("accountId", VStr "correct-id");
       ("orderNumber", VStr "ATEST-0000001")].
Proof.
  split.
  - refine (proj1 (getOrderStatus_request
              (Sample.answering (Sample.success (VObj ∅)))
              (VStr "  ") (Sample.fresh (VBool false))) _).
    intros (s & [= <-] & Hs). by vm_compute in Hs.
  - destruct (proj2 (getOrderStatus_request
                (Sample.answering (Sample.success (VObj ∅)))
                (VStr "ATEST-0000001") (Sample.fresh (VBool false))))
      as (r & Hrun & ->).
    + eexists. split; [reflexivity|]. vm_compute. discriminate.
    + reflexivity.
    + eexists. split; [exact Hrun | reflexivity].
Defined.

Lemma cancelOrder_request_witness :
  cancelOrder (Sample.answering (Sample.success (VObj ∅)))
    (num 42) (Sample.fresh (VBool false))
  = (Throw (Error "orderNumber must be a non-empty string"),
     Sample.fresh (VBool false)) ∧
  ∃ r,
    cancelOrder (Sample.answering (Sample.success (VObj ∅)))
      (VStr "ATEST-0000001") (Sample.fresh (VBool false))
    = (settle (Sample.success (VObj ∅)),
       {| self := Sample.client (VBool false); sent := [r] |}) ∧
    body r = Some (VObj {[ "accountId" := VStr "correct-id";
                           "orderNumber" := VStr "ATEST-0000001" ]}).
Proof.
  split.
  - refine (proj1 (cancelOrder_request
              (Sample.answering (Sample.success (VObj ∅)))
              (num 42) (Sample.fresh (VBool false))) _).
    by intros (s & [=] & _).
  - destruct (proj2 (cancelOrder_request
                (Sample.answering (Sample.success (VObj ∅)))
                (VStr "ATEST-0000001") (Sample.fresh (VBool false))))
      as (r & Hrun & ->).
    + eexists. split; [reflexivity|]. vm_compute. discriminate.
    + reflexivity.
    + eexists. split; [exact Hrun | reflexivity].
Defined.

Lemma createOrder_passes_payload_witness :
  ∃ b,
    body (request_of (Sample.client (VBool true))
            (CreateOrder
               (VObj (Sample.order [Sample.with_files Sample.newsletter]))))
    = Some (VObj b) ∧
    ∀ key, key ≠ "accountId" → key ≠ "testOrder" →
      b !! key
      = Sample.order [Sample.with_files Sample.newsletter] !! key.
Proof.
  apply (createOrder_passes_payload
           (Sample.answering (Sample.success (VObj ∅)))
           (Sample.order [Sample.with_files Sample.newsletter])
           (Sample.fresh (VBool true))).
  vm_compute. reflexivity.
Defined.

(** * Further properties of the validators *)

(** ** When a sequence of checks passes *)

Lemma bind_Ret (m k : outcome unit) :
  (m ;; k) = Ret () ↔ m = Ret () ∧ k = Ret ().
Proof.
  destruct m as [[]|e]; simpl; [by split; [|intros []]|].
  by split; [|intros []].
Qed.

Lemma throw_if_Ret b e : throw_if b e = Ret () ↔ b = false.
Proof. by destruct b. Qed.

Lemma for_from_Ret body l start :
  for_from start body l = Ret () ↔
  ∀ j x, l !! j = Some x → body (start + j) x = Ret ().
Proof.
  revert start. induction l as [|y l IH]; intros start; simpl.
  - split; [by intros _ j x ?|done].
  - rewrite bind_Ret, IH. split.
    + intros [Hy Hl] [|j] x Hx; simplify_eq/=.
      * by rewrite Nat.add_0_r.
      * rewrite <-Nat.add_succ_comm. by apply Hl.
    + intros Hall. split.
      * rewrite <-(Nat.add_0_r start). by apply Hall.
      * intros j x Hx. rewrite Nat.add_succ_comm. by apply Hall.
Qed.

Lemma for_each_throw_if (P : value → bool) (E : nat → exn) l :
  for_each (λ i x, throw_if (negb (P x)) (E i)) l = Ret () ↔
  Forall (λ x, P x = true) l.
Proof.
  unfold for_each. rewrite for_from_Ret, Forall_lookup. split.
  - intros Hall j x Hx. specialize (Hall j x Hx). simpl in Hall.
    by apply throw_if_Ret, negb_false_iff in Hall.
  - intros Hall j x Hx. apply throw_if_Ret, negb_false_iff. by eapply Hall.
Qed.

(** ** What the small tests accept *)

Lemma prefix_append p s :
  String.prefix p s = true ↔ ∃ rest, s = p +:+ rest.
Proof.
  revert s. induction p as [|a p IH]; intros s.
  - destruct s; simpl; split; eauto.
  - destruct s as [|b s]; simpl; [split; [done | by intros [? [=]]]|].
    destruct (ascii_dec a b) as [->|Hab].
    + rewrite IH. split; intros [rest Hr]; exists rest.
      * by rewrite Hr.
      * change (String b s = String b (p +:+ rest)) in Hr. by injection Hr.
    + split; [done|]. intros [rest Hr].
      change (String b s = String a (p +:+ rest)) in Hr. by injection Hr.
Qed.

Lemma includes_contains s sub : includes s sub = true ↔ contains s sub.
Proof.
  unfold contains. induction s as [|c s IH].
  - change (includes "" sub) with (String.prefix sub "" || false).
    rewrite orb_false_r, prefix_append. split.
    + intros [rest Hr]. by exists "", rest.
    + intros ([|] & after & Ha); [|done]. eauto.
  - change (includes (String c s) sub)
      with (String.prefix sub (String c s) || includes s sub).
    rewrite orb_true_iff, IH, prefix_append. split.
    + intros [[rest Hr]|(before & after & ->)].
      * by exists "", rest.
      * by exists (String c before), after.
    + intros ([|a before] & after & Ha).
      * left. eauto.
      * right.
        change (String c s = String a (before +:+ sub +:+ after)) in Ha.
        injection Ha as -> ->. eauto.
Qed.

Lemma isHttpsUrl_https_url v : isHttpsUrl v = true ↔ https_url v.
Proof.
  unfold https_url. destruct v as [| |?|?|s|?|?]; simpl;
    try (split; [done | by intros [? [=]]]).
  unfold startsWith. rewrite prefix_append.
  split; intros [rest Hr]; exists rest; by simplify_eq.
Qed.

Lemma product_type_test v :
  Set_has VALID_PRODUCT_TYPES v = true ↔ known_product_type v.
Proof.
  unfold known_product_type. destruct v as [| |?|?|s|?|?]; simpl;
    try (split; [done | by intros [[=]|[[=]|[[=]|[=]]]]]).
  rewrite bool_decide_eq_true. unfold VALID_PRODUCT_TYPES.
  rewrite elem_of_list_to_set, !elem_of_cons, elem_of_nil. split.
  - intros [->|[->|[->|[->|[]]]]]; auto.
  - intros [[= ->]|[[= ->]|[[= ->]|[= ->]]]]; auto 6.
Qed.

Lemma strict_eq_string_true v s : strict_eq_string v s = true ↔ v = VStr s.
Proof.
  destruct v as [| |?|?|x|?|?]; simpl; try (split; [done | by intros [=]]).
  rewrite String.eqb_eq. split; [by intros -> | by intros [= ->]].
Qed.

Lemma object_test item :
  negb (truthy item) || negb (String.eqb (typeof item) "object")
  || Array_isArray item = false ↔ ∃ o, item = VObj o.
Proof.
  destruct item as [| |[]|[| | |q]|[|a s]|l|o]; simpl;
    try (split; [done | by intros [? [=]]]); try destruct (Qeq_bool q 0);
    try (split; [done | by intros [? [=]]]).
  split; eauto.
Qed.

(** ** Order items *)

Lemma files_check_passes prefix files :
  (throw_if (negb (Array_isArray files)
             || (length (elements files) =? 0)%nat)
            (Error (prefix +:+ ".files must be a non-empty array of HTTPS URLs")) ;;
   for_each (λ j file,
       throw_if (negb (isHttpsUrl file))
                (Error (prefix +:+ ".files[" +:+ pretty j +:+
                          "] must be an HTTPS URL")))
     (elements files)) = Ret () ↔
  ∃ fs, files = VArr fs ∧ fs ≠ [] ∧ Forall https_url fs.
Proof.
  rewrite bind_Ret, throw_if_Ret, for_each_throw_if, orb_false_iff,
    negb_false_iff, Nat.eqb_neq.
  assert (∀ l, Forall (λ x, isHttpsUrl x = true) l ↔ Forall https_url l)
    as Hall.
  { intros l. apply Forall_proper; [|done]. intros x.
    apply isHttpsUrl_https_url. }
  rewrite Hall. destruct files as [| |?|?|?|fs|?]; simpl;
    try (split; [by intros [[[=] _] _] | by intros (? & [=] & _)]).
  split.
  - intros [[_ Hlen] Hfs]. exists fs. by destruct fs.
  - intros (? & [= <-] & Hne & Hfs). by destruct fs.
Qed.

Lemma check_item_passes requireFiles i item :
  check_item requireFiles i item = Ret () ↔ valid_item requireFiles item.
Proof.
  unfold check_item, valid_item. cbv zeta.
  rewrite !bind_Ret, !throw_if_Ret, requireString_passes, negb_false_iff,
    product_type_test, object_test, <-quantity_test.
  do 4 (apply and_iff_compat_l).
  apply Morphisms_Prop.and_iff_morphism.
  - destruct (strict_eq_string (prop item "sku") "LFP_CS") eqn:Hs.
    + apply strict_eq_string_true in Hs.
      rewrite bind_Ret, !throw_if_Ret, !dimension_test.
      split; [done|]. intros Hd. by apply Hd.
    + split; [|done]. intros _ Hsku.
      apply strict_eq_string_true in Hsku. congruence.
  - destruct requireFiles.
    + rewrite files_check_passes. split; [done|]. intros Hf. by apply Hf.
    + by split.
Qed.

(** X13. [validateOrderItems] passes exactly on a non-empty array whose
    every element is a valid item: an object with a non-blank sku, one of
    the four product types and an integer quantity from 1 to 1000; with
    both dimensions let through when the sku is ["LFP_CS"]; and, when files
    are required, with a non-empty array of strings that start with
    ["https://"]. *)
Theorem validateOrderItems_passes items requireFiles :
  validateOrderItems items requireFiles = Ret () ↔
  ∃ l, items = VArr l ∧ l ≠ [] ∧ Forall (valid_item requireFiles) l.
Proof.
  unfold validateOrderItems, for_each.
  rewrite bind_Ret, throw_if_Ret, for_from_Ret, orb_false_iff,
    negb_false_iff, Nat.eqb_neq.
  destruct items as [| |?|?|?|l|?]; simpl;
    try (split; [by intros [[[=] _] _] | by intros (? & [=] & _)]).
  split.
  - intros [[_ Hlen] Hall]. exists l. split; [done|]. split; [by destruct l|].
    apply Forall_lookup. intros j x Hx. by eapply check_item_passes, Hall.
  - intros (? & [= <-] & Hne & Hall). split; [split; [done | by destruct l]|].
    intros j x Hx. apply check_item_passes.
    by eapply (proj1 (Forall_lookup _ _) Hall).
Qed.

(** X14. Items are checked in order and the first fault is the one
    reported: when the items before index [i] pass and the item at [i]
    makes the loop throw, [validateOrderItems] throws that error. *)
Theorem first_invalid_item_reported requireFiles items i item e :
  (∀ j x, j < i → items !! j = Some x → valid_item requireFiles x) →
  items !! i = Some item →
  check_item requireFiles i item = Throw e →
  validateOrderItems (VArr items) requireFiles = Throw e.
Proof.
  intros Hbefore Hi He. unfold validateOrderItems. simpl.
  destruct items as [|x items]; [done|]. simpl length. simpl throw_if.
  change (for_each (check_item requireFiles) (x :: items) = Throw e).
  apply (for_from_first _ _ i item); [|done..].
  intros j y Hj Hy. apply check_item_passes. by eapply Hbefore.
Qed.

Lemma validateOrderItems_passes_witness :
  validateOrderItems (VArr [Sample.with_files Sample.newsletter]) true
  = Ret ().
Proof.
  apply (validateOrderItems_passes
           (VArr [Sample.with_files Sample.newsletter]) true).
  eexists. split; [reflexivity|]. split; [done|].
  apply Forall_singleton. split; [by eexists|].
  split.
  { eexists. split; [vm_compute; reflexivity | vm_compute; discriminate]. }
  split; [left; vm_compute; reflexivity|].
  split; [apply quantity_test; vm_compute; reflexivity|].
  split; [intros Hs; vm_compute in Hs; discriminate|].
  intros _. eexists. split; [vm_compute; reflexivity|]. split; [done|].
  apply Forall_singleton. by eexists.
Defined.

Lemma first_invalid_item_reported_witness :
  validateOrderItems
    (VArr [VObj Sample.newsletter; VNull; Sample.blank_sku_zero_quantity])
    false
  = Throw (Error "orderItems[1] must be an object").
Proof.
  apply (first_invalid_item_reported false
           [VObj Sample.newsletter; VNull; Sample.blank_sku_zero_quantity]
           1 VNull).
  - intros [|j] x Hj Hx; [|lia]. simplify_eq/=.
    apply (check_item_passes false 0). vm_compute. reflexivity.
  - reflexivity.
  - vm_compute. reflexivity.
Defined.

(** ** Files *)

(** With files required, an item that is otherwise in order is checked for
    its files only. *)
Lemma check_item_files i item :
  valid_item false item →
  check_item true i item =
    (throw_if (negb (Array_isArray (prop item "files"))
               || (length (elements (prop item "files")) =? 0)%nat)
              (Error (("orderItems[" +:+ pretty i +:+ "]") +:+
                 ".files must be a non-empty array of HTTPS URLs")) ;;
     for_each (λ j file,
         throw_if (negb (isHttpsUrl file))
                  (Error (("orderItems[" +:+ pretty i +:+ "]") +:+
                            ".files[" +:+ pretty j +:+
                            "] must be an HTTPS URL")))
       (elements (prop item "files"))).
Proof.
  intros Hv%(check_item_passes false i). unfold check_item in *.
  cbv zeta in *.
  apply bind_Ret in Hv as [H1 Hv]. apply bind_Ret in Hv as [H2 Hv].
  apply bind_Ret in Hv as [H3 Hv]. apply bind_Ret in Hv as [H4 Hv].
  apply bind_Ret in Hv as [H5 _].
  by rewrite H1, H2, H3, H4, H5.
Qed.

(** X15. With files required, an item in order but for its files is
    refused for them: with ["orderItems[i].files must be a non-empty array
    of HTTPS URLs"] when [files] is missing, not an array or empty, and
    with ["orderItems[i].files[j] must be an HTTPS URL"] for the first
    entry [j] that is not a string starting with ["https://"]. *)
Theorem files_fault_reported items i item :
  (∀ j x, j < i → items !! j = Some x → valid_item true x) →
  items !! i = Some item →
  valid_item false item →
  (¬ (∃ files, prop item "files" = VArr files ∧ files ≠ []) →
   validateOrderItems (VArr items) true =
     Throw (Error (("orderItems[" +:+ pretty i +:+ "]") +:+
              ".files must be a non-empty array of HTTPS URLs"))) ∧
  (∀ files j file,
     prop item "files" = VArr files →
     (∀ m y, m < j → files !! m = Some y → https_url y) →
     files !! j = Some file →
     ¬ https_url file →
     validateOrderItems (VArr items) true =
       Throw (Error (("orderItems[" +:+ pretty i +:+ "]") +:+
                ".files[" +:+ pretty j +:+ "] must be an HTTPS URL"))).
Proof.
  intros Hbefore Hi Hv.
  assert (∀ e, check_item true i item = Throw e →
               validateOrderItems (VArr items) true = Throw e) as Hfirst.
  { intros e He. unfold validateOrderItems. simpl.
    destruct items as [|x items]; [done|]. simpl length. simpl throw_if.
    change (for_each (check_item true) (x :: items) = Throw e).
    apply (for_from_first _ _ i item); [|done..].
    intros j y Hj Hy. apply check_item_passes. by eapply Hbefore. }
  split.
  - intros Hno. apply Hfirst. rewrite (check_item_files i item Hv).
    destruct (prop item "files") as [| |?|?|?|[|f fs]|?]; try done.
    destruct Hno. by eexists.
  - intros files j file Hf Hgood Hj Hbad. apply Hfirst.
    rewrite (check_item_files i item Hv), Hf. simpl elements.
    assert (negb (Array_isArray (VArr files))
            || (length files =? 0)%nat = false) as ->.
    { destruct files; [done|]. done. }
    simpl throw_if.
    change (for_each
              (λ j file, throw_if (negb (isHttpsUrl file))
                 (Error (("orderItems[" +:+ pretty i +:+ "]") +:+
                           ".files[" +:+ pretty j +:+
                           "] must be an HTTPS URL"))) files
            = Throw (Error (("orderItems[" +:+ pretty i +:+ "]") +:+
                        ".files[" +:+ pretty j +:+ "] must be an HTTPS URL"))).
    apply (for_from_first _ _ j file); [|done|].
    + intros m y Hm Hy. simpl. apply throw_if_Ret, negb_false_iff.
      apply isHttpsUrl_https_url. by eapply Hgood.
    + simpl. rewrite <-isHttpsUrl_https_url in Hbad.
      apply not_true_is_false in Hbad. by rewrite Hbad.
Qed.

Lemma files_fault_reported_witness :
  validateOrderItems (VArr [VObj Sample.newsletter]) true
  = Throw (Error "orderItems[0].files must be a non-empty array of HTTPS URLs")
  ∧
  validateOrderItems
    (VArr [VObj (<["files" := VArr [VStr "https://example.com/a.pdf";
                                   VStr "http://example.com/b.pdf"]]>
                   Sample.newsletter)]) true
  = Throw (Error "orderItems[0].files[1] must be an HTTPS URL").
Proof.
  assert (∀ o, check_item false 0 (VObj o) = Ret () →
               valid_item false (VObj o)) as Hv
    by (intros o; apply check_item_passes).
  split.
  - refine (proj1 (files_fault_reported [VObj Sample.newsletter] 0
                     (VObj Sample.newsletter) _ eq_refl _) _).
    + intros j x Hj. lia.
    + apply Hv. vm_compute. reflexivity.
    + intros (files & Hf & _). vm_compute in Hf. discriminate.
  - refine (proj2 (files_fault_reported
                     [VObj (<["files" := VArr [VStr "https://example.com/a.pdf";
                                              VStr "http://example.com/b.pdf"]]>
                              Sample.newsletter)] 0 _ _ eq_refl _)
                  [VStr "https://example.com/a.pdf";
                   VStr "http://example.com/b.pdf"] 1
                  (VStr "http://example.com/b.pdf") _ _ eq_refl _).
    + intros j x Hj. lia.
    + apply Hv. vm_compute. reflexivity.
    + vm_compute. reflexivity.
    + intros [|m] y Hm Hy; [|lia]. simplify_eq/=. by eexists.
    + intros [rest Hr]. vm_compute in Hr. discriminate.
Defined.

(** ** Customers *)

Lemma if_Ret (b : bool) (m : outcome unit) :
  (if b then m else Ret ()) = Ret () ↔ (b = true → m = Ret ()).
Proof. destruct b; split; auto. by intros _ [=]. Qed.

Lemma phone_check_passes v e :
  match v with
  | VStr phone => throw_if (String.length phone <=? 9)%nat e
  | _ => Throw e
  end = Ret () ↔ ∃ phone, v = VStr phone ∧ 9 < String.length phone.
Proof.
  destruct v as [| |?|?|s|?|?];
    try (split; [done | by intros (? & [=] & _)]).
  rewrite throw_if_Ret, Nat.leb_gt. split; [eauto|].
  by intros (? & [= <-] & ?).
Qed.

Lemma tracking_emails_pass label emails :
  (throw_if (negb (Array_isArray emails)
             || (length (elements emails) <? 1)%nat
             || (3 <? length (elements emails))%nat)
            (Error (label +:+
               ".shipmentTrackingEmail must be an array of 1-3 email addresses")) ;;
   for_each (λ i email,
       throw_if (negb (isEmail email))
                (Error (label +:+ ".shipmentTrackingEmail[" +:+ pretty i +:+
                          "] must be a valid email address")))
     (elements emails)) = Ret () ↔
  ∃ l, emails = VArr l ∧ 1 ≤ length l ≤ 3 ∧
       Forall (λ email, isEmail email = true) l.
Proof.
  rewrite bind_Ret, throw_if_Ret, for_each_throw_if, !orb_false_iff,
    negb_false_iff, !Nat.ltb_ge.
  destruct emails as [| |?|?|?|l|?]; simpl;
    try (split; [by intros [[[[=] _] _] _] | by intros (? & [=] & _)]).
  split.
  - intros [[[_ H1] H3] Hall]. exists l. split; [done|]. split; [lia|done].
  - intros (? & [= <-] & Hlen & Hall). repeat split; try done; lia.
Qed.

Lemma invoice_emails_pass label emails :
  (throw_if (negb (Array_isArray emails))
            (Error (label +:+
               ".billingInvoiceEmails must be an array of email addresses")) ;;
   for_each (λ i email,
       throw_if (negb (isEmail email))
                (Error (label +:+ ".billingInvoiceEmails[" +:+ pretty i +:+
                          "] must be a valid email address")))
     (elements emails)) = Ret () ↔
  ∃ l, emails = VArr l ∧ Forall (λ email, isEmail email = true) l.
Proof.
  rewrite bind_Ret, throw_if_Ret, for_each_throw_if, negb_false_iff.
  destruct emails as [| |?|?|?|l|?]; simpl;
    try (split; [by intros [[=] _] | by intros (? & [=] & _)]).
  split; [intros [_ Hall]; eauto|]. by intros (? & [= <-] & Hall).
Qed.

Lemma non_blank_string_object v key :
  non_blank_string (prop v key) → ∃ o, v = VObj o.
Proof. intros (s & Hs & _). destruct v; try done. eauto. Qed.

(** X16. [validateCustomer] passes exactly on a valid customer: an object
    whose first name, last name, first address line, city, zip and phone
    are non-blank strings, whose phone has more than nine code units, whose
    email passes [isEmail] and whose state passes [isState]; as
    ["shippingCustomer"] it needs an array of one to three tracking emails,
    as ["billingCustomer"] its invoice emails, unless [null] or
    [undefined], are an array of emails. *)
Theorem validateCustomer_passes customer label :
  validateCustomer customer label = Ret () ↔ valid_customer label customer.
Proof.
  unfold validateCustomer, valid_customer. cbv zeta.
  rewrite !bind_Ret, !throw_if_Ret, !requireString_passes, !negb_false_iff,
    phone_check_passes, !if_Ret, tracking_emails_pass, invoice_emails_pass,
    String.eqb_eq, andb_true_iff, String.eqb_eq.
  split.
  - intros (_ & Hfirst & Hrest).
    split; [by eapply non_blank_string_object|]. split; [done|].
    destruct Hrest as (? & ? & ? & ? & ? & ? & ? & ? & ? & Hb).
    repeat (split; [done|]). intros ??. by apply Hb.
  - intros ((o & ->) & Hfirst & ? & ? & ? & ? & ? & ? & ? & ? & ? & Hb).
    split; [done|]. repeat (split; [done|]). intros [??]. by apply Hb.
Qed.

Lemma validateCustomer_passes_witness :
  validateCustomer (VObj (Sample.customer "CA")) "shippingCustomer" = Ret ().
Proof.
  apply (validateCustomer_passes (VObj (Sample.customer "CA"))
           "shippingCustomer").
  assert (∀ v, (∃ s, v = VStr s ∧ String.eqb (trim s) "" = false) →
               non_blank_string v) as Hnb.
  { intros v (s & -> & Hs). exists s. split; [done|].
    by apply String.eqb_neq. }
  split; [by eexists|].
  do 6 (split; [apply Hnb; eexists; split; vm_compute; reflexivity|]).
  split; [eexists; split; [vm_compute; reflexivity | vm_compute; lia]|].
  split; [vm_compute; reflexivity|]. split; [vm_compute; reflexivity|].
  split.
  - intros _. eexists. split; [vm_compute; reflexivity|].
    split; [simpl; lia|]. repeat constructor.
  - intros [=].
Defined.

(** ** Emails and blank strings *)

(** X17. [isEmail] is the minimal test it is meant to be: it accepts
    exactly the strings that contain an ["@"] and a ["."], anywhere and in
    any order, and no other value. *)
Theorem isEmail_accepts v :
  isEmail v = true ↔ ∃ s, v = VStr s ∧ contains s "@" ∧ contains s ".".
Proof.
  destruct v as [| |?|?|s|?|?]; simpl;
    try (split; [done | by intros (? & [=] & _)]).
  rewrite andb_true_iff, !includes_contains. split.
  - intros [??]. eauto.
  - by intros (? & [= <-] & ?).
Qed.

Lemma trimStart_empty s :
  trimStart s = "" ↔ Forall (λ c, is_white c = true) (chars s).
Proof.
  induction s as [|c s IH]; simpl.
  - split; [by constructor | done].
  - unfold chars in *. simpl. rewrite Forall_cons.
    destruct (is_white c); [rewrite IH; by split; [|intros []]|].
    split; [done | by intros [[=] _]].
Qed.

Lemma trimStart_head s c t : trimStart s = String c t → is_white c = false.
Proof.
  induction s as [|a s IH]; simpl; [done|].
  destruct (is_white a) eqn:Ha; [done|]. by intros [= <- _].
Qed.

Lemma rev_empty s : String.rev s = "" ↔ s = "".
Proof.
  split; [|by intros ->]. intros Hr. apply chars_inj.
  apply (f_equal chars) in Hr. rewrite chars_rev in Hr.
  apply (f_equal reverse) in Hr. by rewrite reverse_involutive in Hr.
Qed.

Lemma trim_blank s :
  trim s = "" ↔ Forall (λ c, is_white c = true) (chars s).
Proof.
  unfold trim, trimEnd. rewrite rev_empty, trimStart_empty, chars_rev.
  rewrite Forall_reverse. split.
  - intros Hall. apply trimStart_empty.
    destruct (trimStart s) as [|c t] eqn:Hs; [done|].
    apply trimStart_head in Hs. unfold chars in Hall. simpl in Hall.
    apply Forall_cons in Hall as [Hc _]. congruence.
  - intros Hall%trimStart_empty. rewrite Hall. by constructor.
Qed.

(** X18. A string counts as empty when it has nothing but white space
    (spaces, tabs, line breaks, no-break spaces): [requireString] passes
    exactly on the strings with a code unit that is not white space, and
    refuses every other value with ["<label> must be a non-empty
    string"]. *)
Theorem requireString_outcome val label :
  (has_visible val → requireString val label = Ret ()) ∧
  (¬ has_visible val →
   requireString val label =
     Throw (Error (label +:+ " must be a non-empty string"))).
Proof.
  unfold has_visible. destruct val as [| |?|?|s|?|?]; simpl;
    try (split; [by intros (? & [=] & _) | done]).
  destruct (String.eqb_spec (trim s) "") as [Hb|Hb]; simpl.
  - apply trim_blank in Hb. split; [|done].
    intros (? & [= <-] & Hex). apply Exists_exists in Hex as (c & Hc & Hw).
    rewrite Forall_forall in Hb. specialize (Hb c Hc). congruence.
  - split; [done|]. intros Hno. destruct Hb. apply trim_blank.
    apply Forall_forall. intros c Hc.
    destruct (is_white c) eqn:Hw; [done|]. destruct Hno.
    exists s. split; [done|]. apply Exists_exists. eauto.
Qed.

Lemma requireString_outcome_witness :
  requireString (VStr "ATEST-0000001") "orderNumber" = Ret () ∧
  requireString (VStr "   ") "apiKey"
  = Throw (Error "apiKey must be a non-empty string").
Proof.
  split.
  - refine (proj1 (requireString_outcome (VStr "ATEST-0000001")
                     "orderNumber") _).
    eexists. split; [reflexivity|]. by apply Exists_cons_hd.
  - refine (proj2 (requireString_outcome (VStr "   ") "apiKey") _).
    intros (s & [= <-] & Hex). apply Exists_exists in Hex as (c & Hc & Hw).
    vm_compute in Hc.
    repeat (apply elem_of_cons in Hc as [->|Hc]; [by vm_compute in Hw|]).
    by apply elem_of_nil in Hc.
Defined.

(** ** The order payload *)

Lemma validateCustomer_truthy customer label :
  validateCustomer customer label = Ret () → truthy customer = true.
Proof.
  unfold validateCustomer. intros [Hc _]%bind_Ret.
  apply throw_if_Ret, orb_false_iff in Hc as [Hc _].
  by apply negb_false_iff in Hc.
Qed.

(** X19. [validateCreateOrderData] passes exactly when the payload is an
    object whose date and reference number are non-blank strings, whose
    items pass with files required, whose shipping customer passes, and,
    if [sourceSystemBilling] is [false], whose billing customer passes. *)
Theorem validateCreateOrderData_passes orderData :
  validateCreateOrderData orderData = Ret () ↔
  (∃ o, orderData = VObj o) ∧
  non_blank_string (prop orderData "orderDatetime") ∧
  non_blank_string (prop orderData "sourceReferenceOrderNumber") ∧
  validateOrderItems (prop orderData "orderItems") true = Ret () ∧
  validateCustomer (prop orderData "shippingCustomer") "shippingCustomer"
    = Ret () ∧
  (prop orderData "sourceSystemBilling" = VBool false →
   validateCustomer (prop orderData "billingCustomer") "billingCustomer"
     = Ret ()).
Proof.
  unfold validateCreateOrderData.
  rewrite !bind_Ret, !throw_if_Ret, !requireString_passes.
  assert (match prop orderData "sourceSystemBilling" with
          | VBool false =>
              throw_if (negb (truthy (prop orderData "billingCustomer")))
                (Error "billingCustomer is required when sourceSystemBilling is false") ;;
              validateCustomer (prop orderData "billingCustomer")
                "billingCustomer"
          | _ => Ret ()
          end = Ret () ↔
          (prop orderData "sourceSystemBilling" = VBool false →
           validateCustomer (prop orderData "billingCustomer")
             "billingCustomer" = Ret ())) as ->.
  { destruct (prop orderData "sourceSystemBilling") as [| |[]|?|?|?|?];
      try (split; [done | by intros _]).
    rewrite bind_Ret, throw_if_Ret, negb_false_iff. split.
    - by intros [_ ?] _.
    - intros Hb. split; [|by apply Hb].
      by eapply validateCustomer_truthy, Hb. }
  split.
  - intros (_ & Hd & Hrest). split; [|done].
    by eapply non_blank_string_object.
  - by intros ((o & ->) & Hrest).
Qed.

(** X20. The billing customer matters only when [sourceSystemBilling] is
    strictly [false]: with any other value, or none, the result of the
    validation does not depend on the [billingCustomer] field; with
    [false] and no billing customer, an order otherwise in order is refused
    with ["billingCustomer is required when sourceSystemBilling is
    false"]. *)
Theorem billing_customer_only_when_delegated (o : gmap string value) :
  (o !! "sourceSystemBilling" ≠ Some (VBool false) →
   ∀ billing,
     validateCreateOrderData (VObj (<["billingCustomer" := billing]> o))
     = validateCreateOrderData (VObj o)) ∧
  (o !! "sourceSystemBilling" = Some (VBool false) →
   truthy (prop (VObj o) "billingCustomer") = false →
   non_blank_string (prop (VObj o) "orderDatetime") →
   non_blank_string (prop (VObj o) "sourceReferenceOrderNumber") →
   validateOrderItems (prop (VObj o) "orderItems") true = Ret () →
   validateCustomer (prop (VObj o) "shippingCustomer") "shippingCustomer"
     = Ret () →
   validateCreateOrderData (VObj o) =
     Throw (Error "billingCustomer is required when sourceSystemBilling is false")).
Proof.
  split.
  - intros Hs billing. unfold validateCreateOrderData.
    rewrite (prop_agree o (<["billingCustomer" := billing]> o)
               "orderDatetime"),
      (prop_agree o (<["billingCustomer" := billing]> o)
         "sourceReferenceOrderNumber"),
      (prop_agree o (<["billingCustomer" := billing]> o) "orderItems"),
      (prop_agree o (<["billingCustomer" := billing]> o) "shippingCustomer"),
      (prop_agree o (<["billingCustomer" := billing]> o)
         "sourceSystemBilling")
      by (by rewrite lookup_insert_ne).
    assert (prop (VObj o) "sourceSystemBilling" ≠ VBool false) as Hne.
    { simpl. destruct (o !! "sourceSystemBilling"); simpl; congruence. }
    by destruct (prop (VObj o) "sourceSystemBilling") as [| |[]|?|?|?|?].
  - intros Hs%prop_Some Hb Hd Hn Hi Hc. unfold validateCreateOrderData.
    apply (requireString_passes _ "orderDatetime") in Hd.
    apply (requireString_passes _ "sourceReferenceOrderNumber") in Hn.
    by rewrite Hd, Hn, Hi, Hc, Hs, Hb.
Qed.

Lemma validateCreateOrderData_passes_witness :
  validateCreateOrderData
    (VObj (Sample.order [Sample.with_files Sample.newsletter])) = Ret ().
Proof.
  apply (validateCreateOrderData_passes
           (VObj (Sample.order [Sample.with_files Sample.newsletter]))).
  split; [by eexists|].
  split; [eexists; split; [vm_compute; reflexivity|vm_compute; discriminate]|].
  split; [eexists; split; [vm_compute; reflexivity|vm_compute; discriminate]|].
  split; [vm_compute; reflexivity|]. split; [vm_compute; reflexivity|].
  intros Hs. vm_compute in Hs. discriminate.
Defined.

Lemma billing_customer_only_when_delegated_witness :
  validateCreateOrderData
    (VObj (<["billingCustomer" := num 7]>
             (Sample.order [Sample.with_files Sample.newsletter])))
  = validateCreateOrderData
      (VObj (Sample.order [Sample.with_files Sample.newsletter])) ∧
  validateCreateOrderData
    (VObj (<["sourceSystemBilling" := VBool false]>
             (Sample.order [Sample.with_files Sample.newsletter])))
  = Throw (Error "billingCustomer is required when sourceSystemBilling is false").
Proof.
  split.
  - refine (proj1 (billing_customer_only_when_delegated
                     (Sample.order [Sample.with_files Sample.newsletter]))
                  _ (num 7)).
    vm_compute. discriminate.
  - refine (proj2 (billing_customer_only_when_delegated
                     (<["sourceSystemBilling" := VBool false]>
                        (Sample.order [Sample.with_files Sample.newsletter])))
                  _ _ _ _ _ _); try (vm_compute; reflexivity).
    + eexists. split; [vm_compute; reflexivity | vm_compute; discriminate].
    + eexists. split; [vm_compute; reflexivity | vm_compute; discriminate].
Defined.
